(** * Air-Quality dashboard: the dataset generator and the rule-based AQI score

    A shallow embedding of [Air_quality.py]:

    - [load_data] (lines 10-32), the seeded generator of the demo data
      frame together with its derived [AQI] column, and the
      [@st.cache_data] decorator that memoises it;
    - the body of the "Predict AQI" button (lines 102-125): the weighted
      sum, its upper cap [min(prediction, 500)] and the category ladder;
    - what the rest of the script reads from the frame and the score:
      [df.head()], the column selections [df[key]] and [df[pollutants]],
      the reruns through the memo table, and the bar of the gauge.

    Numbers.  The integer columns are [Z].  Every float of the program is
    modelled by an exact rational ([Q]): the development is about the
    arithmetic of the formula and the comparisons of the ladder, and says
    nothing about binary64 rounding.  Equalities between computed
    rationals are therefore stated with [==].  The button's block is
    also written once over binary64 ([Binary64]), to evaluate the
    boundary cases in the program's own arithmetic.

    Libraries.  numpy's generator and pandas' calendar are not part of the
    repository.  The generator is an interface ([RandomState]) whose
    documented contract is a separate class ([RandomStateLaws]); the
    sampling functions [randint] and [uniform] are written over it.
    [date_range] is written over the proleptic Gregorian day count. *)

From Stdlib Require Import ZArith QArith Qminmax Qabs Lqa Lia.
From stdpp Require Import base option list strings gmap.
From Corelib Require PrimFloat SpecFloat FloatOps FloatAxioms.

#[local] Set Warnings "-inexact-float".

Local Open Scope Z_scope.

(** ** Exceptions and the state-and-exception monad *)

(** The only exception the modelled code can meet: numpy and pandas raise
    [ValueError] for a negative size. *)
Inductive exn : Set := ValueError.

(** [inl e]: the call raised [e]; [inr v]: it returned [v]. *)
Definition result (A : Type) : Type := exn + A.

(** A computation over a mutable state [S].  The state survives an
    exception, as Python's global state does. *)
Definition M (S A : Type) : Type := S -> result A * S.

#[global] Instance M_ret {S} : MRet (M S) := fun A x s => (inr x, s).

#[global] Instance M_bind {S} : MBind (M S) := fun A B f c s =>
  match c s with
  | (inl e, s') => (inl e, s')
  | (inr x, s') => f x s'
  end.

Definition raise {S A} (e : exn) : M S A := fun s => (inl e, s).

Definition put {S} (s : S) : M S unit := fun _ => (inr tt, s).

(** The outcome of running [c] from [s], the final state dropped. *)
Definition outcome {S A} (c : M S A) (s : S) : result A := fst (c s).

(** ** numpy.random (legacy global [RandomState]) *)

(** The generator's primitives, as in numpy's [randomkit]:
    [rk_seed] initialises a state from a seed, [rk_interval max] draws an
    integer of [0..max], [rk_double] draws a real of [0, 1). *)
Class RandomState := {
  rk_state : Type;
  rk_seed : Z -> rk_state;
  rk_interval : Z -> rk_state -> Z * rk_state;
  rk_double : rk_state -> Q * rk_state
}.

(** The documented ranges of the two draws. *)
Class RandomStateLaws (R : RandomState) : Prop := {
  rk_interval_range : forall max s,
    0 <= max -> 0 <= fst (rk_interval max s) <= max;
  rk_double_range : forall s,
    (0 <= fst (rk_double s) /\ fst (rk_double s) < 1)%Q
}.

Section NumpyRandom.
Context {R : RandomState}.

(** [np.random.seed(seed)] replaces the global state. *)
Definition np_random_seed (seed : Z) : M rk_state unit := put (rk_seed seed).

(** An array of [n] successive draws, filled in index order. *)
Fixpoint draws {A} (draw : rk_state -> A * rk_state) (n : nat)
    (s : rk_state) : list A * rk_state :=
  match n with
  | O => ([], s)
  | S k =>
      let (x, s1) := draw s in
      let (xs, s2) := draws draw k s1 in
      (x :: xs, s2)
  end.

(** An array of the given size; a negative size raises [ValueError]
    ("negative dimensions are not allowed"), size 0 gives the empty
    array. *)
Definition sample {A} (draw : rk_state -> A * rk_state) (size : Z)
    : M rk_state (list A) :=
  fun s =>
    if size <? 0 then (inl ValueError, s)
    else let (xs, s') := draws draw (Z.to_nat size) s in (inr xs, s').

(** One integer of [low, high): [low + rk_interval (high - 1 - low)]. *)
Definition randint1 (low high : Z) (s : rk_state) : Z * rk_state :=
  let (v, s') := rk_interval (high - 1 - low) s in (low + v, s').

(** One real of [low, high): [low + (high - low) * rk_double]. *)
Definition uniform1 (low high : Q) (s : rk_state) : Q * rk_state :=
  let (u, s') := rk_double s in ((low + (high - low) * u)%Q, s').

(** [np.random.randint(low, high, size)]; [low >= high] raises
    [ValueError]. *)
Definition randint (low high size : Z) : M rk_state (list Z) :=
  if high <=? low then raise ValueError
  else sample (randint1 low high) size.

(** [np.random.uniform(low, high, size)]. *)
Definition uniform (low high : Q) (size : Z) : M rk_state (list Q) :=
  sample (uniform1 low high) size.

End NumpyRandom.

(** ** pandas: timestamps and [date_range] *)

(** A civil date of the proleptic Gregorian calendar. *)
Record Date : Set := mkDate { year : Z; month : Z; day : Z }.

(** A daily timestamp: whole days since 1970-01-01 (pandas keeps
    nanoseconds since that epoch; with midnight starts and [freq="D"]
    every value is a whole number of days). *)
Definition Timestamp : Set := Z.

(** The day count of a civil date. *)
Definition days_from_civil (d : Date) : Timestamp :=
  let y := if month d <=? 2 then year d - 1 else year d in
  let era := y / 400 in
  let yoe := y - era * 400 in
  let mp := if 2 <? month d then month d - 3 else month d + 9 in
  let doy := (153 * mp + 2) / 5 + day d - 1 in
  let doe := yoe * 365 + yoe / 4 - yoe / 100 + doy in
  era * 146097 + doe - 719468.

(** The civil date of a day count. *)
Definition civil_from_days (t : Timestamp) : Date :=
  let z := t + 719468 in
  let era := z / 146097 in
  let doe := z - era * 146097 in
  let yoe := (doe - doe / 1460 + doe / 36524 - doe / 146096) / 365 in
  let doy := doe - (365 * yoe + yoe / 4 - yoe / 100) in
  let mp := (5 * doy + 2) / 153 in
  let d := doy - (153 * mp + 2) / 5 + 1 in
  let m := if mp <? 10 then mp + 3 else mp - 9 in
  let y := yoe + era * 400 in
  mkDate (if m <=? 2 then y + 1 else y) m d.

(** [pd.date_range(start, periods=n, freq="D")]: [n] timestamps one day
    apart from [start]; a negative [periods] raises [ValueError]. *)
Definition date_range (start : Date) (periods : Z) : result (list Timestamp) :=
  if periods <? 0 then inl ValueError
  else inr ((fun i => days_from_civil start + i) <$> seqZ 0 periods).

(** The calendar, stated independently of the day count: leap years, the
    lengths of the months and the day after a date. *)
Definition is_leap (y : Z) : bool :=
  (y mod 4 =? 0) && (negb (y mod 100 =? 0) || (y mod 400 =? 0)).

Definition days_in_month (y m : Z) : Z :=
  if m =? 2 then (if is_leap y then 29 else 28)
  else if (m =? 4) || (m =? 6) || (m =? 9) || (m =? 11) then 30
  else 31.

Definition next_day (d : Date) : Date :=
  if day d <? days_in_month (year d) (month d) then
    mkDate (year d) (month d) (day d + 1)
  else if month d <? 12 then mkDate (year d) (month d + 1) 1
  else mkDate (year d + 1) 1 1.

(** The calendar walk of [n] days from [d]. *)
Fixpoint calendar_from (d : Date) (n : nat) : list Date :=
  match n with
  | O => []
  | S k => d :: calendar_from (next_day d) k
  end.

(** ** pandas: columns and their arithmetic *)

Local Open Scope Q_scope.

(** Decidable comparisons of rationals, as Python's [<] and [<=]. *)
Definition Qltb (a b : Q) : bool :=
  match a ?= b with Lt => true | _ => false end.

Definition Qleb (a b : Q) : bool := Qle_bool a b.

(** An int64 column times a float scalar: a float column. *)
Definition Series_mul_int (s : list Z) (k : Q) : list Q :=
  (fun x => inject_Z x * k) <$> s.

(** A float column times a scalar. *)
Definition Series_mul (s : list Q) (k : Q) : list Q :=
  (fun x => x * k) <$> s.

(** The sum of two float columns over the same index, element by
    element. *)
Definition Series_add (a b : list Q) : list Q := zip_with Qplus a b.

(** [Series.clip(lower, upper)] on one element: below [lower] gives
    [lower], then above [upper] gives [upper] (both tests read the
    original value). *)
Definition clip1 (lower upper x : Q) : Q :=
  let r := if Qleb lower x then x else lower in
  if Qleb x upper then r else upper.

Definition Series_clip (lower upper : Q) (s : list Q) : list Q :=
  clip1 lower upper <$> s.

Declare Scope series_scope.
Delimit Scope series_scope with series.
Infix "*i" := Series_mul_int (at level 40, left associativity) : series_scope.
Infix "*f" := Series_mul (at level 40, left associativity) : series_scope.
Infix "+s" := Series_add (at level 50, left associativity) : series_scope.

(** ** The data frame *)

(** The dictionary [data] of [load_data]: one column per key. *)
Record Data : Type := mkData {
  PM2_5 : list Z;
  PM10 : list Z;
  NO2 : list Z;
  SO2 : list Z;
  CO : list Q;
  O3 : list Z;
  Temperature : list Q;
  Humidity : list Q;
  Wind : list Q;
  date : list Timestamp
}.

(** The frame after [df["AQI"] = ...]. *)
Record DataFrame : Type := mkDataFrame {
  columns :> Data;
  AQI : list Q
}.

(** One record of the frame. *)
Record Row : Type := mkRow {
  r_PM2_5 : Z;
  r_PM10 : Z;
  r_NO2 : Z;
  r_SO2 : Z;
  r_CO : Q;
  r_O3 : Z;
  r_Temperature : Q;
  r_Humidity : Q;
  r_Wind : Q;
  r_date : Timestamp;
  r_AQI : Q
}.

(** [df.iloc[i]]: the [i]-th record, when there is one. *)
Definition iloc (df : DataFrame) (i : nat) : option Row :=
  a ← PM2_5 df !! i; b ← PM10 df !! i; c ← NO2 df !! i; d ← SO2 df !! i;
  e ← CO df !! i; f ← O3 df !! i; t ← Temperature df !! i;
  h ← Humidity df !! i; w ← Wind df !! i; dt ← date df !! i;
  q ← AQI df !! i;
  Some (mkRow a b c d e f t h w dt q).

(** [len(df)]: the length of the index. *)
Definition len (df : DataFrame) : nat := length (date df).

(** [pd.DataFrame(data)]: the columns must all have one length, or
    pandas raises [ValueError]. *)
Definition same_length (d : Data) : bool :=
  let n := length (PM2_5 d) in
  bool_decide (length (PM10 d) = n) && bool_decide (length (NO2 d) = n)
  && bool_decide (length (SO2 d) = n) && bool_decide (length (CO d) = n)
  && bool_decide (length (O3 d) = n) && bool_decide (length (Temperature d) = n)
  && bool_decide (length (Humidity d) = n) && bool_decide (length (Wind d) = n)
  && bool_decide (length (date d) = n).

Definition pd_DataFrame (d : Data) : result Data :=
  if same_length d then inr d else inl ValueError.

(** Lines 27-31: the weighted sum of the pollutant columns, clipped to
    [0, 500]. *)
Definition AQI_column (d : Data) : list Q :=
  Series_clip 0 500
    (PM2_5 d *i 0.4 +s PM10 d *i 0.2 +s
     NO2 d *i 0.15 +s SO2 d *i 0.1 +s
     CO d *f 10 +s O3 d *i 0.05)%series.

Definition assign_AQI (d : Data) : DataFrame := mkDataFrame d (AQI_column d).

(** The frame with no record. *)
Definition empty_frame : DataFrame :=
  mkDataFrame (mkData [] [] [] [] [] [] [] [] [] []) [].

(** A library result inside a computation. *)
Definition lift {S A} (r : result A) : M S A := fun s => (r, s).

Section Generator.
Context {R : RandomState}.

(** [load_data(n)], lines 11-32. *)
Definition load_data (n : Z) : M rk_state DataFrame :=
  np_random_seed 42;;
  c_pm25 ← randint 10 300 n;
  c_pm10 ← randint 20 400 n;
  c_no2 ← randint 5 150 n;
  c_so2 ← randint 2 80 n;
  c_co ← uniform 0.1 5.0 n;
  c_o3 ← randint 10 250 n;
  c_temperature ← uniform 10 40 n;
  c_humidity ← uniform 20 90 n;
  c_wind ← uniform 0 10 n;
  c_date ← lift (date_range (mkDate 2023 1 1) n);
  df ← lift (pd_DataFrame
         (mkData c_pm25 c_pm10 c_no2 c_so2 c_co c_o3
                 c_temperature c_humidity c_wind c_date));
  mret (assign_AQI df).

(** The trace of a successful [load_data n]: the nine samples drawn in
    the order of the dictionary from the state seeded with 42, the
    dates, the length check and the derived column. *)
Definition trace (n : Z) (df : DataFrame) (g' : rk_state) : Prop :=
  exists s1 s2 s3 s4 s5 s6 s7 s8,
    randint 10 300 n (rk_seed 42) = (inr (PM2_5 df), s1)
    /\ randint 20 400 n s1 = (inr (PM10 df), s2)
    /\ randint 5 150 n s2 = (inr (NO2 df), s3)
    /\ randint 2 80 n s3 = (inr (SO2 df), s4)
    /\ uniform 0.1 5.0 n s4 = (inr (CO df), s5)
    /\ randint 10 250 n s5 = (inr (O3 df), s6)
    /\ uniform 10 40 n s6 = (inr (Temperature df), s7)
    /\ uniform 20 90 n s7 = (inr (Humidity df), s8)
    /\ uniform 0 10 n s8 = (inr (Wind df), g')
    /\ date_range (mkDate 2023 1 1) n = inr (date df)
    /\ same_length df = true
    /\ AQI df = AQI_column df.

(** The session of the running app: numpy's global generator and the
    memo table of [@st.cache_data], keyed by the argument. *)
Record Session : Type := mkSession {
  np_random : rk_state;
  cache : gmap Z DataFrame
}.

(** [@st.cache_data]: a stored result is returned as it is, a miss runs
    the function and stores what it returns; an exception stores
    nothing. *)
Definition cache_data (f : Z -> M rk_state DataFrame) (n : Z)
    : M Session DataFrame :=
  fun σ =>
    match cache σ !! n with
    | Some df => (inr df, σ)
    | None =>
        match f n (np_random σ) with
        | (inr df, g) => (inr df, mkSession g (<[n := df]> (cache σ)))
        | (inl e, g) => (inl e, mkSession g (cache σ))
        end
    end.

(** The decorated function, and the module-level call [load_data()]
    with its default [n=200]. *)
Definition cached_load_data : Z -> M Session DataFrame :=
  cache_data load_data.

Definition load_data_default : M Session DataFrame := cached_load_data 200.

(** A memo table is sound when each stored frame is what the function
    returns for its key (from whatever generator state). *)
Definition cache_sound (c : gmap Z DataFrame) : Prop :=
  forall n df, c !! n = Some df ->
  forall g, outcome (load_data n) g = inr df.

(** A fresh session: nothing memoised yet. *)
Definition fresh_session (g : rk_state) : Session := mkSession g ∅.

End Generator.

(** ** The "Predict AQI" button (lines 89-125) *)

(** The nine values of the sidebar form. *)
Record Sidebar : Set := mkSidebar {
  pm25 : Q;
  pm10 : Q;
  no2 : Q;
  so2 : Q;
  co : Q;
  o3 : Q;
  temp : Q;
  humid : Q;
  wind : Q
}.

(** The bounds each [st.sidebar.number_input] enforces on its value
    ([min_value], [max_value]), and the default [value]s. *)
Definition within (lo hi x : Q) : Prop := lo <= x /\ x <= hi.

Definition widget_bounds (s : Sidebar) : Prop :=
  within 0 500 (pm25 s) /\ within 0 500 (pm10 s) /\ within 0 200 (no2 s)
  /\ within 0 200 (so2 s) /\ within 0 50 (co s) /\ within 0 300 (o3 s)
  /\ within (-10) 50 (temp s) /\ within 0 100 (humid s)
  /\ within 0 20 (wind s).

Definition default_sidebar : Sidebar := mkSidebar 50 80 30 20 1 40 25 60 2.

(** Lines 104-107: the rule-based formula. *)
Definition weighted_sum (s : Sidebar) : Q :=
  pm25 s * 0.4 + pm10 s * 0.2 + no2 s * 0.15 +
  so2 s * 0.1 + co s * 10 + o3 s * 0.05.

(** Python's [min(a, b)]: [b] when [b < a], else [a]. *)
Definition py_min (a b : Q) : Q := if Qltb b a then b else a.

(** Line 108. *)
Definition prediction (s : Sidebar) : Q := py_min (weighted_sum s) 500.

Inductive Category : Set := Good | Moderate | Poor | VeryPoor | Severe.

(** Lines 111-125: the ladder on the capped prediction, with the colour
    of the gauge. *)
Definition category (p : Q) : Category * string :=
  if Qleb p 50 then (Good, "green"%string)
  else if Qleb p 100 then (Moderate, "yellow"%string)
  else if Qleb p 200 then (Poor, "orange"%string)
  else if Qleb p 300 then (VeryPoor, "red"%string)
  else (Severe, "darkred"%string).

(** The whole block: it has no [raise], so its outcome is always a
    value, the pair of the capped prediction and its category. *)
Definition score (s : Sidebar) : result (Q * Category) :=
  inr (prediction s, fst (category (prediction s))).


(** ** The block in binary64

    Lines 104-125 once more, over the floats the program computes with;
    used to evaluate concrete inputs. *)
Module Binary64.
Import PrimFloat.
Local Open Scope float_scope.

Definition weighted_sum (pm25 pm10 no2 so2 co o3 : float) : float :=
  pm25 * 0.4 + pm10 * 0.2 + no2 * 0.15 +
  so2 * 0.1 + co * 10 + o3 * 0.05.

Definition py_min (a b : float) : float := if b <? a then b else a.

Definition prediction (pm25 pm10 no2 so2 co o3 : float) : float :=
  py_min (weighted_sum pm25 pm10 no2 so2 co o3) 500.

Definition category (p : float) : Category * string :=
  if p <=? 50 then (Good, "green"%string)
  else if p <=? 100 then (Moderate, "yellow"%string)
  else if p <=? 200 then (Poor, "orange"%string)
  else if p <=? 300 then (VeryPoor, "red"%string)
  else (Severe, "darkred"%string).

Definition score (pm25 pm10 no2 so2 co o3 : float) : float * Category :=
  let p := prediction pm25 pm10 no2 so2 co o3 in (p, fst (category p)).

End Binary64.

(** ** The statements of the specification *)

(** [clamp(x, lo, hi)]. *)
Definition clamp (x lo hi : Q) : Q := Qmax lo (Qmin x hi).




(** The sum of lines 28-30 on the fields of one record, in the order the
    code adds the terms. *)
Definition row_weighted (r : Row) : Q :=
  inject_Z (r_PM2_5 r) * 0.4 + inject_Z (r_PM10 r) * 0.2 +
  inject_Z (r_NO2 r) * 0.15 + inject_Z (r_SO2 r) * 0.1 +
  r_CO r * 10 + inject_Z (r_O3 r) * 0.05.

(** The declared domains of the fields of a record. *)
Definition in_domain (r : Row) : Prop :=
  (10 <= r_PM2_5 r < 300)%Z /\ (20 <= r_PM10 r < 400)%Z
  /\ (5 <= r_NO2 r < 150)%Z /\ (2 <= r_SO2 r < 80)%Z
  /\ (0.1 <= r_CO r /\ r_CO r < 5.0)
  /\ (10 <= r_O3 r < 250)%Z
  /\ (10 <= r_Temperature r /\ r_Temperature r < 40)
  /\ (20 <= r_Humidity r /\ r_Humidity r < 90)
  /\ (0 <= r_Wind r /\ r_Wind r < 10).

(** The specification's ladder as a relation between a score and a
    category. *)
Definition in_bucket (a : Q) (c : Category) : Prop :=
  match c with
  | Good => a <= 50
  | Moderate => 50 < a /\ a <= 100
  | Poor => 100 < a /\ a <= 200
  | VeryPoor => 200 < a /\ a <= 300
  | Severe => 300 < a
  end.

(** ** A concrete generator

    A linear congruential generator that implements [RandomState], to
    run the model on concrete inputs. *)
Module Lcg.

Definition modulus : Z := 2147483648.

Definition step (s : Z) : Z := (1103515245 * s + 12345) mod modulus.

Definition interval (max : Z) (s : Z) : Z * Z :=
  let s' := step s in (s' mod (max + 1), s')%Z.

Definition double (s : Z) : Q * Z :=
  let s' := step s in (Qmake s' 2147483648, s').

Definition random_state : RandomState := {|
  rk_state := Z;
  rk_seed := fun seed => seed mod modulus;
  rk_interval := interval;
  rk_double := double
|}.

End Lcg.

(** ** The rest of the script: overview, selectors, reruns, gauge *)

(** A column with its dtype, as [df[key]] returns it. *)
Inductive Series : Type :=
  | Int64 (l : list Z)
  | Float64 (l : list Q)
  | Datetime64 (l : list Timestamp).


Definition is_numeric (s : Series) : bool :=
  match s with
  | Datetime64 _ => false
  | _ => true
  end.

(** The columns of the frame under their names, in the order of the
    dictionary, [AQI] last. *)
Definition items (df : DataFrame) : list (string * Series) :=
  [ ("PM2.5"%string, Int64 (PM2_5 df));
    ("PM10"%string, Int64 (PM10 df));
    ("NO2"%string, Int64 (NO2 df));
    ("SO2"%string, Int64 (SO2 df));
    ("CO"%string, Float64 (CO df));
    ("O3"%string, Int64 (O3 df));
    ("Temperature"%string, Float64 (Temperature df));
    ("Humidity"%string, Float64 (Humidity df));
    ("Wind"%string, Float64 (Wind df));
    ("date"%string, Datetime64 (date df));
    ("AQI"%string, Float64 (AQI df)) ].

(** The first entry under a key. *)
Fixpoint assoc {A} (key : string) (l : list (string * A)) : option A :=
  match l with
  | [] => None
  | (k, v) :: l' => if String.eqb k key then Some v else assoc key l'
  end.

(** [df[key]]; [None] stands for pandas' [KeyError]. *)
Definition getitem (df : DataFrame) (key : string) : option Series :=
  assoc key (items df).

(** Line 50. *)
Definition pollutants : list string :=
  [ "PM2.5"; "PM10"; "NO2"; "SO2"; "CO"; "O3" ]%string.

(** [st.selectbox(label, options)]: the option the user picked. *)
Definition selectbox (options : list string) (choice : nat) : option string :=
  options !! choice.

(** Lines 51-54: the column the histogram is drawn from. *)
Definition histogram_column (df : DataFrame) (choice : nat) : option Series :=
  key ← selectbox pollutants choice; getitem df key.

(** Line 83, [df[pollutants]]: the sub-frame of the listed columns, in
    the order of the list; one missing key fails the whole selection. *)
Definition getitems (df : DataFrame) (keys : list string)
    : option (list (string * Series)) :=
  mapM (fun k => (fun s => (k, s)) <$> getitem df k) keys.


(** The severity order of the categories. *)
Definition rank (c : Category) : nat :=
  match c with
  | Good => 0
  | Moderate => 1
  | Poor => 2
  | VeryPoor => 3
  | Severe => 4
  end.

(** Lines 129-133: the horizontal bar of the gauge, its colour and the
    limits of its axis. *)
Record Gauge : Type := mkGauge {
  bar_width : Q;
  bar_color : string;
  xlim : Q * Q
}.

Definition gauge (s : Sidebar) : Gauge :=
  mkGauge (prediction s) (snd (category (prediction s))) (0, 500).

(** The form filled with the fields of a record. *)
Definition sidebar_of_row (r : Row) : Sidebar :=
  mkSidebar (inject_Z (r_PM2_5 r)) (inject_Z (r_PM10 r)) (inject_Z (r_NO2 r))
            (inject_Z (r_SO2 r)) (r_CO r) (inject_Z (r_O3 r))
            (r_Temperature r) (r_Humidity r) (r_Wind r).

Section Reruns.
Context {R : RandomState}.

(** The session after a sequence of calls of the memoised function, one
    per rerun of the script. *)
Fixpoint run_calls (ns : list Z) (σ : Session) : Session :=
  match ns with
  | [] => σ
  | n :: ns' => run_calls ns' (snd (cached_load_data n σ))
  end.

End Reruns.

(** * Properties *)

(** ** Comparisons, [min] and [clip] *)

Lemma Qleb_le (a b : Q) : Qleb a b = true <-> a <= b.
Proof. apply Qle_bool_iff. Qed.

Lemma Qleb_gt (a b : Q) : Qleb a b = false <-> b < a.
Proof.
  rewrite <- not_true_iff_false, Qleb_le. split.
  - apply Qnot_le_lt.
  - apply Qlt_not_le.
Qed.

Lemma Qltb_lt (a b : Q) : Qltb a b = true <-> a < b.
Proof.
  unfold Qltb. rewrite Qlt_alt.
  destruct (a ?= b); split; intros H; try reflexivity; discriminate H.
Qed.

Lemma Qltb_ge (a b : Q) : Qltb a b = false <-> b <= a.
Proof.
  rewrite <- not_true_iff_false, Qltb_lt. split.
  - apply Qnot_lt_le.
  - apply Qle_not_lt.
Qed.

(** Case analysis on a boolean comparison, keeping the order fact. *)
Ltac cmp_cases :=
  repeat match goal with
  | |- context [Qleb ?a ?b] =>
      let E := fresh "E" in
      destruct (Qleb a b) eqn:E;
      [apply Qleb_le in E | apply Qleb_gt in E]
  | |- context [Qltb ?a ?b] =>
      let E := fresh "E" in
      destruct (Qltb a b) eqn:E;
      [apply Qltb_lt in E | apply Qltb_ge in E]
  end.

Lemma py_min_Qmin (a b : Q) : py_min a b == Qmin a b.
Proof.
  unfold py_min. cmp_cases.
  - symmetry. apply Q.min_r. lra.
  - symmetry. apply Q.min_l. lra.
Qed.

Lemma py_min_le_l (a b : Q) : a <= b -> py_min a b = a.
Proof. intros H. unfold py_min. cmp_cases; [lra | reflexivity]. Qed.


Lemma clamp_cases (x lo hi : Q) :
  lo <= hi ->
  (x < lo /\ clamp x lo hi == lo) \/ (lo <= x <= hi /\ clamp x lo hi == x)
  \/ (hi < x /\ clamp x lo hi == hi).
Proof.
  intros Hlh. unfold clamp.
  destruct (Qlt_le_dec x lo) as [Hlo | Hlo].
  - left. split; [exact Hlo |].
    rewrite (Q.min_l x hi) by lra. apply Q.max_l. lra.
  - right. destruct (Qlt_le_dec hi x) as [Hhi | Hhi].
    + right. split; [exact Hhi |].
      rewrite (Q.min_r x hi) by lra. apply Q.max_r. exact Hlh.
    + left. split; [split; assumption |].
      rewrite (Q.min_l x hi) by lra. apply Q.max_r. exact Hlo.
Qed.

(** pandas' two-test [clip] is the usual clamp when [lower <= upper]. *)
Lemma clip1_clamp (lo hi x : Q) : lo <= hi -> clip1 lo hi x == clamp x lo hi.
Proof.
  intros Hlh. unfold clip1.
  destruct (clamp_cases x lo hi Hlh) as [[H E] | [[H E] | [H E]]];
    rewrite E; cmp_cases; lra.
Qed.


Lemma clip1_id (lo hi x : Q) : lo <= x <= hi -> clip1 lo hi x = x.
Proof. intros H. unfold clip1. cmp_cases; try reflexivity; lra. Qed.

(** ** The monad *)

Lemma bind_inr {S A B} (c : M S A) (k : A -> M S B) s v s' :
  (c ≫= k) s = (inr v, s') ->
  exists x s1, c s = (inr x, s1) /\ k x s1 = (inr v, s').
Proof.
  unfold mbind, M_bind. destruct (c s) as [[e | x] s1]; intros H.
  - discriminate H.
  - exists x, s1. split; [reflexivity | exact H].
Qed.

Lemma bind_step {S A B} (c : M S A) (k : A -> M S B) s x s1 :
  c s = (inr x, s1) -> (c ≫= k) s = k x s1.
Proof. intros H. unfold mbind, M_bind. rewrite H. reflexivity. Qed.

Lemma bind_raise {S A B} (c : M S A) (k : A -> M S B) s e s1 :
  c s = (inl e, s1) -> (c ≫= k) s = (inl e, s1).
Proof. intros H. unfold mbind, M_bind. rewrite H. reflexivity. Qed.

Lemma lift_inr {S A} (r : result A) (s s' : S) v :
  lift r s = (inr v, s') -> r = inr v /\ s' = s.
Proof. unfold lift. intros H. injection H as -> ->. split; reflexivity. Qed.

(** ** numpy.random *)

Section NumpyRandomFacts.
Context {R : RandomState}.

Lemma draws_length {A} (draw : rk_state -> A * rk_state) n s :
  length (fst (draws draw n s)) = n.
Proof.
  revert s. induction n as [| k IH]; intros s; simpl.
  - reflexivity.
  - destruct (draw s) as [x s1]. specialize (IH s1).
    destruct (draws draw k s1) as [xs s2]. simpl in *. now rewrite IH.
Qed.

Lemma draws_Forall {A} (P : A -> Prop) (draw : rk_state -> A * rk_state) :
  (forall s, P (fst (draw s))) ->
  forall n s, Forall P (fst (draws draw n s)).
Proof.
  intros HP. induction n as [| k IH]; intros s; simpl.
  - constructor.
  - pose proof (HP s) as Hx. destruct (draw s) as [x s1].
    specialize (IH s1). destruct (draws draw k s1) as [xs s2].
    simpl in *. constructor; assumption.
Qed.

Lemma sample_negative {A} (draw : rk_state -> A * rk_state) size s :
  (size < 0)%Z -> sample draw size s = (inl ValueError, s).
Proof.
  intros H. unfold sample. apply Z.ltb_lt in H. now rewrite H.
Qed.

Lemma sample_ok {A} (draw : rk_state -> A * rk_state) size s :
  (0 <= size)%Z ->
  exists xs s', sample draw size s = (inr xs, s')
                /\ length xs = Z.to_nat size.
Proof.
  intros H. unfold sample. apply Z.ltb_ge in H. rewrite H.
  pose proof (draws_length draw (Z.to_nat size) s) as Hl.
  destruct (draws draw (Z.to_nat size) s) as [xs s'].
  exists xs, s'. split; [reflexivity | exact Hl].
Qed.

Lemma sample_inv {A} (draw : rk_state -> A * rk_state) size s xs s' :
  sample draw size s = (inr xs, s') ->
  (0 <= size)%Z /\ length xs = Z.to_nat size
  /\ forall P : A -> Prop, (forall s0, P (fst (draw s0))) -> Forall P xs.
Proof.
  unfold sample. destruct (size <? 0)%Z eqn:E; [discriminate |].
  apply Z.ltb_ge in E. intros H.
  pose proof (draws_length draw (Z.to_nat size) s) as Hl.
  assert (HF : forall P : A -> Prop, (forall s0, P (fst (draw s0))) ->
               Forall P (fst (draws draw (Z.to_nat size) s)))
    by (intros P HP; apply draws_Forall; exact HP).
  destruct (draws draw (Z.to_nat size) s) as [ys s2].
  injection H as -> ->. simpl in *. repeat split; assumption.
Qed.

Lemma randint_inv low high size s xs s' :
  randint low high size s = (inr xs, s') ->
  (low < high)%Z /\ sample (randint1 low high) size s = (inr xs, s').
Proof.
  unfold randint. destruct (high <=? low)%Z eqn:E.
  - discriminate.
  - apply Z.leb_gt in E. intros H. split; assumption.
Qed.

Context {L : RandomStateLaws R}.

Lemma randint1_range low high s :
  (low < high)%Z -> (low <= fst (randint1 low high s) < high)%Z.
Proof.
  intros H. unfold randint1.
  pose proof (rk_interval_range (high - 1 - low) s ltac:(lia)) as Hr.
  destruct (rk_interval (high - 1 - low) s) as [v s1]. simpl in *. lia.
Qed.

Lemma uniform1_range low high s :
  low < high ->
  low <= fst (uniform1 low high s) /\ fst (uniform1 low high s) < high.
Proof.
  intros H. unfold uniform1.
  pose proof (rk_double_range s) as [H0 H1].
  destruct (rk_double s) as [u s1]. simpl in *. split; nra.
Qed.

Lemma randint_range low high size s xs s' :
  randint low high size s = (inr xs, s') ->
  Forall (fun x => (low <= x < high)%Z) xs.
Proof.
  intros H. apply randint_inv in H as [Hlt H].
  apply sample_inv in H as (_ & _ & HF). apply HF.
  intros s0. apply randint1_range. exact Hlt.
Qed.

Lemma uniform_range low high size s xs s' :
  low < high ->
  uniform low high size s = (inr xs, s') ->
  Forall (fun x => low <= x /\ x < high) xs.
Proof.
  intros Hlt H. apply sample_inv in H as (_ & _ & HF). apply HF.
  intros s0. apply uniform1_range. exact Hlt.
Qed.

End NumpyRandomFacts.

(** ** The generator *)

Section GeneratorFacts.
Context {R : RandomState}.

Lemma load_data_trace n g df g' :
  load_data n g = (inr df, g') -> trace n df g'.
Proof.
  unfold load_data. intros H.
  apply bind_inr in H as ([] & s0 & H0 & H).
  unfold np_random_seed, put in H0. injection H0 as <-.
  apply bind_inr in H as (c1 & s1 & H1 & H).
  apply bind_inr in H as (c2 & s2 & H2 & H).
  apply bind_inr in H as (c3 & s3 & H3 & H).
  apply bind_inr in H as (c4 & s4 & H4 & H).
  apply bind_inr in H as (c5 & s5 & H5 & H).
  apply bind_inr in H as (c6 & s6 & H6 & H).
  apply bind_inr in H as (c7 & s7 & H7 & H).
  apply bind_inr in H as (c8 & s8 & H8 & H).
  apply bind_inr in H as (c9 & s9 & H9 & H).
  apply bind_inr in H as (cd & sd & Hd & H).
  apply lift_inr in Hd as [Hd ->].
  apply bind_inr in H as (d & sf & Hf & H).
  apply lift_inr in Hf as [Hf ->].
  unfold pd_DataFrame in Hf.
  destruct (same_length _) eqn:Hlen in Hf; [| discriminate Hf].
  injection Hf as <-.
  unfold mret, M_ret in H. injection H as <- <-.
  exists s1, s2, s3, s4, s5, s6, s7, s8. simpl.
  repeat split; assumption.
Qed.

(** The seed line makes the call forget the state it starts from. *)
Lemma load_data_reseeds n g1 g2 : load_data n g1 = load_data n g2.
Proof. reflexivity. Qed.

Lemma load_data_negative n g :
  (n < 0)%Z -> load_data n g = (inl ValueError, rk_seed 42).
Proof.
  intros H. unfold load_data.
  erewrite bind_step by reflexivity.
  apply bind_raise. unfold randint. simpl.
  apply sample_negative. exact H.
Qed.

Lemma same_length_intro (d : Data) (k : nat) :
  length (PM2_5 d) = k -> length (PM10 d) = k -> length (NO2 d) = k ->
  length (SO2 d) = k -> length (CO d) = k -> length (O3 d) = k ->
  length (Temperature d) = k -> length (Humidity d) = k ->
  length (Wind d) = k -> length (date d) = k ->
  same_length d = true.
Proof.
  intros E0 E1 E2 E3 E4 E5 E6 E7 E8 E9. unfold same_length.
  rewrite !andb_true_iff, !bool_decide_eq_true. repeat split; congruence.
Qed.

Lemma same_length_elim (d : Data) :
  same_length d = true ->
  let k := length (date d) in
  length (PM2_5 d) = k /\ length (PM10 d) = k /\ length (NO2 d) = k
  /\ length (SO2 d) = k /\ length (CO d) = k /\ length (O3 d) = k
  /\ length (Temperature d) = k /\ length (Humidity d) = k
  /\ length (Wind d) = k.
Proof.
  unfold same_length.
  rewrite !andb_true_iff, !bool_decide_eq_true.
  intros H. simpl. repeat split; lia.
Qed.

Lemma date_range_ok start n :
  (0 <= n)%Z ->
  date_range start n
  = inr ((fun i => days_from_civil start + i)%Z <$> seqZ 0 n).
Proof. intros H. unfold date_range. apply Z.ltb_ge in H. now rewrite H. Qed.

Lemma date_range_inv start n l :
  date_range start n = inr l ->
  (0 <= n)%Z /\ l = (fun i => days_from_civil start + i)%Z <$> seqZ 0 n.
Proof.
  unfold date_range. destruct (n <? 0)%Z eqn:E; [discriminate |].
  apply Z.ltb_ge in E. intros H. injection H as <-. split; [exact E | reflexivity].
Qed.

Lemma date_range_length start n l :
  date_range start n = inr l -> length l = Z.to_nat n.
Proof.
  intros H. apply date_range_inv in H as [_ ->].
  now rewrite length_fmap, length_seqZ.
Qed.

(** For a size that is not negative the call returns a frame. *)
Lemma load_data_total n g :
  (0 <= n)%Z -> exists df g', load_data n g = (inr df, g').
Proof.
  intros Hn. unfold load_data.
  erewrite bind_step by reflexivity.
  unfold randint, uniform. simpl.
  destruct (sample_ok (randint1 10 300) n (rk_seed 42) Hn) as (c1 & s1 & E1 & L1).
  erewrite bind_step by exact E1.
  destruct (sample_ok (randint1 20 400) n s1 Hn) as (c2 & s2 & E2 & L2).
  erewrite bind_step by exact E2.
  destruct (sample_ok (randint1 5 150) n s2 Hn) as (c3 & s3 & E3 & L3).
  erewrite bind_step by exact E3.
  destruct (sample_ok (randint1 2 80) n s3 Hn) as (c4 & s4 & E4 & L4).
  erewrite bind_step by exact E4.
  destruct (sample_ok (uniform1 0.1 5.0) n s4 Hn) as (c5 & s5 & E5 & L5).
  erewrite bind_step by exact E5.
  destruct (sample_ok (randint1 10 250) n s5 Hn) as (c6 & s6 & E6 & L6).
  erewrite bind_step by exact E6.
  destruct (sample_ok (uniform1 10 40) n s6 Hn) as (c7 & s7 & E7 & L7).
  erewrite bind_step by exact E7.
  destruct (sample_ok (uniform1 20 90) n s7 Hn) as (c8 & s8 & E8 & L8).
  erewrite bind_step by exact E8.
  destruct (sample_ok (uniform1 0 10) n s8 Hn) as (c9 & s9 & E9 & L9).
  erewrite bind_step by exact E9.
  erewrite bind_step by (unfold lift; rewrite (date_range_ok _ n Hn); reflexivity).
  erewrite bind_step.
  2:{ unfold lift, pd_DataFrame.
      rewrite (same_length_intro _ (Z.to_nat n)); simpl;
        try assumption; try reflexivity.
      now rewrite length_fmap, length_seqZ. }
  eexists _, _. reflexivity.
Qed.

End GeneratorFacts.

(** ** Records of a frame *)



Lemma clamp_compat (x y lo hi : Q) : x == y -> clamp x lo hi == clamp y lo hi.
Proof. intros E. unfold clamp. now rewrite E. Qed.

Lemma iloc_Some (df : DataFrame) (i : nat) (row : Row) :
  iloc df i = Some row ->
  PM2_5 df !! i = Some (r_PM2_5 row) /\ PM10 df !! i = Some (r_PM10 row)
  /\ NO2 df !! i = Some (r_NO2 row) /\ SO2 df !! i = Some (r_SO2 row)
  /\ CO df !! i = Some (r_CO row) /\ O3 df !! i = Some (r_O3 row)
  /\ Temperature df !! i = Some (r_Temperature row)
  /\ Humidity df !! i = Some (r_Humidity row)
  /\ Wind df !! i = Some (r_Wind row)
  /\ date df !! i = Some (r_date row)
  /\ AQI df !! i = Some (r_AQI row).
Proof.
  unfold iloc. intros H.
  destruct (PM2_5 df !! i); [| discriminate H].
  destruct (PM10 df !! i); [| discriminate H].
  destruct (NO2 df !! i); [| discriminate H].
  destruct (SO2 df !! i); [| discriminate H].
  destruct (CO df !! i); [| discriminate H].
  destruct (O3 df !! i); [| discriminate H].
  destruct (Temperature df !! i); [| discriminate H].
  destruct (Humidity df !! i); [| discriminate H].
  destruct (Wind df !! i); [| discriminate H].
  destruct (date df !! i); [| discriminate H].
  destruct (AQI df !! i); [| discriminate H].
  simpl in H. injection H as <-. simpl. repeat split; reflexivity.
Qed.

(** The derived column, read at one index. *)
Lemma AQI_column_lookup (d : Data) (i : nat) a b c e f g :
  PM2_5 d !! i = Some a -> PM10 d !! i = Some b -> NO2 d !! i = Some c ->
  SO2 d !! i = Some e -> CO d !! i = Some f -> O3 d !! i = Some g ->
  AQI_column d !! i
  = Some (clip1 0 500
            (inject_Z a * 0.4 + inject_Z b * 0.2 + inject_Z c * 0.15 +
             inject_Z e * 0.1 + f * 10 + inject_Z g * 0.05)).
Proof.
  intros Ha Hb Hc He Hf Hg.
  unfold AQI_column, Series_clip, Series_add, Series_mul_int, Series_mul.
  rewrite list_lookup_fmap, !lookup_zip_with, !list_lookup_fmap.
  rewrite Ha, Hb, Hc, He, Hf, Hg. reflexivity.
Qed.

Lemma AQI_column_length (d : Data) :
  same_length d = true -> length (AQI_column d) = length (date d).
Proof.
  intros H. apply same_length_elim in H. simpl in H.
  destruct H as (H1 & H2 & H3 & H4 & H5 & H6 & _).
  unfold AQI_column, Series_clip, Series_add, Series_mul_int, Series_mul.
  rewrite length_fmap, !length_zip_with, !length_fmap. lia.
Qed.

Section RowFacts.
Context {R : RandomState}.

(** The [AQI] of a generated record is the clipped sum of its own
    pollutant fields. *)
Lemma generated_row_AQI n g df g' i row :
  load_data n g = (inr df, g') -> iloc df i = Some row ->
  r_AQI row = clip1 0 500 (row_weighted row).
Proof.
  intros H Hrow. apply load_data_trace in H.
  destruct H as (s1 & s2 & s3 & s4 & s5 & s6 & s7 & s8 & H).
  destruct H as (_ & _ & _ & _ & _ & _ & _ & _ & _ & _ & _ & HA).
  apply iloc_Some in Hrow.
  destruct Hrow as (Ha & Hb & Hc & He & Hf & Hg & _ & _ & _ & _ & Hq).
  rewrite HA, (AQI_column_lookup _ _ _ _ _ _ _ _ Ha Hb Hc He Hf Hg) in Hq.
  injection Hq as <-. reflexivity.
Qed.

(** A generated frame has [n] records, at the indices below [n]. *)
Lemma generated_len n g df g' :
  load_data n g = (inr df, g') -> len df = Z.to_nat n.
Proof.
  intros H. apply load_data_trace in H.
  destruct H as (s1 & s2 & s3 & s4 & s5 & s6 & s7 & s8 & H).
  destruct H as (_ & _ & _ & _ & _ & _ & _ & _ & _ & Hd & _).
  unfold len. eapply date_range_length. exact Hd.
Qed.

Lemma generated_iloc n g df g' i :
  load_data n g = (inr df, g') ->
  is_Some (iloc df i) <-> (i < Z.to_nat n)%nat.
Proof.
  intros H. pose proof (generated_len _ _ _ _ H) as Hlen.
  apply load_data_trace in H.
  destruct H as (s1 & s2 & s3 & s4 & s5 & s6 & s7 & s8 & H).
  destruct H as (_ & _ & _ & _ & _ & _ & _ & _ & _ & _ & Hs & HA).
  pose proof (AQI_column_length _ Hs) as HL. rewrite <- HA in HL.
  apply same_length_elim in Hs. simpl in Hs.
  destruct Hs as (H1 & H2 & H3 & H4 & H5 & H6 & H7 & H8 & H9).
  unfold len in Hlen. split.
  - intros [row Hrow]. apply iloc_Some in Hrow.
    destruct Hrow as (_ & _ & _ & _ & _ & _ & _ & _ & _ & Hd & _).
    apply lookup_lt_Some in Hd. lia.
  - intros Hi. unfold iloc.
    destruct (lookup_lt_is_Some_2 (PM2_5 df) i ltac:(lia)) as [x1 ->].
    destruct (lookup_lt_is_Some_2 (PM10 df) i ltac:(lia)) as [x2 ->].
    destruct (lookup_lt_is_Some_2 (NO2 df) i ltac:(lia)) as [x3 ->].
    destruct (lookup_lt_is_Some_2 (SO2 df) i ltac:(lia)) as [x4 ->].
    destruct (lookup_lt_is_Some_2 (CO df) i ltac:(lia)) as [x5 ->].
    destruct (lookup_lt_is_Some_2 (O3 df) i ltac:(lia)) as [x6 ->].
    destruct (lookup_lt_is_Some_2 (Temperature df) i ltac:(lia)) as [x7 ->].
    destruct (lookup_lt_is_Some_2 (Humidity df) i ltac:(lia)) as [x8 ->].
    destruct (lookup_lt_is_Some_2 (Wind df) i ltac:(lia)) as [x9 ->].
    destruct (lookup_lt_is_Some_2 (date df) i ltac:(lia)) as [x10 ->].
    destruct (lookup_lt_is_Some_2 (AQI df) i ltac:(lia)) as [x11 ->].
    simpl. eexists. reflexivity.
Qed.

Context {L : RandomStateLaws R}.

(** Every field of a generated record lies in the range it was drawn
    from. *)
Lemma generated_row_domain n g df g' i row :
  load_data n g = (inr df, g') -> iloc df i = Some row -> in_domain row.
Proof.
  intros H Hrow. apply load_data_trace in H.
  destruct H as (s1 & s2 & s3 & s4 & s5 & s6 & s7 & s8 & H).
  destruct H as (H1 & H2 & H3 & H4 & H5 & H6 & H7 & H8 & H9 & _).
  apply iloc_Some in Hrow.
  destruct Hrow as (Ha & Hb & Hc & He & Hf & Hg & Ht & Hh & Hw & _).
  apply randint_range in H1, H2, H3, H4, H6.
  apply uniform_range in H5; [| reflexivity].
  apply uniform_range in H7; [| reflexivity].
  apply uniform_range in H8; [| reflexivity].
  apply uniform_range in H9; [| reflexivity].
  unfold in_domain. repeat apply conj.
  all: first
    [ apply (Forall_lookup_1 _ _ _ _ H1 Ha)
    | apply (Forall_lookup_1 _ _ _ _ H2 Hb)
    | apply (Forall_lookup_1 _ _ _ _ H3 Hc)
    | apply (Forall_lookup_1 _ _ _ _ H4 He)
    | apply (Forall_lookup_1 _ _ _ _ H5 Hf)
    | apply (Forall_lookup_1 _ _ _ _ H6 Hg)
    | apply (Forall_lookup_1 _ _ _ _ H7 Ht)
    | apply (Forall_lookup_1 _ _ _ _ H8 Hh)
    | apply (Forall_lookup_1 _ _ _ _ H9 Hw) ].
Qed.

End RowFacts.

(** The weighted sum over the declared domains. *)
Lemma domain_sum_bounds (r : Row) :
  in_domain r -> 10.45 <= row_weighted r /\ row_weighted r < 292.1.
Proof.
  unfold in_domain, row_weighted.
  intros ([A1 A2] & [B1 B2] & [C1 C2] & [D1 D2] & [E1 E2] & [F1 F2] & _).
  assert (A2' : (r_PM2_5 r <= 299)%Z) by lia.
  assert (B2' : (r_PM10 r <= 399)%Z) by lia.
  assert (C2' : (r_NO2 r <= 149)%Z) by lia.
  assert (D2' : (r_SO2 r <= 79)%Z) by lia.
  assert (F2' : (r_O3 r <= 249)%Z) by lia.
  rewrite Zle_Qle in A1, A2', B1, B2', C1, C2', D1, D2', F1, F2'.
  change (inject_Z 10) with 10 in *. change (inject_Z 299) with 299 in *.
  change (inject_Z 20) with 20 in *. change (inject_Z 399) with 399 in *.
  change (inject_Z 5) with 5 in *. change (inject_Z 149) with 149 in *.
  change (inject_Z 2) with 2 in *. change (inject_Z 79) with 79 in *.
  change (inject_Z 249) with 249 in *.
  split; lra.
Qed.

(** ** The memo table *)

Section CacheFacts.
Context {R : RandomState}.

Lemma cache_sound_empty : cache_sound ∅.
Proof. intros n df H. rewrite lookup_empty in H. discriminate H. Qed.

(** With a sound table the decorated function returns what the function
    itself returns. *)
Lemma cached_outcome n σ :
  cache_sound (cache σ) ->
  outcome (cached_load_data n) σ = outcome (load_data n) (np_random σ).
Proof.
  intros Hs. unfold outcome, cached_load_data, cache_data.
  destruct (cache σ !! n) as [df |] eqn:E.
  - simpl. symmetry. apply (Hs n df E).
  - destruct (load_data n (np_random σ)) as [[e | df] g]; reflexivity.
Qed.

(** Soundness is kept by every call. *)
Lemma cached_preserves_sound n σ :
  cache_sound (cache σ) ->
  cache_sound (cache (snd (cached_load_data n σ))).
Proof.
  intros Hs. unfold cached_load_data, cache_data.
  destruct (cache σ !! n) as [df |] eqn:E; [exact Hs |].
  destruct (load_data n (np_random σ)) as [[e | df] g] eqn:El; [exact Hs |].
  simpl. intros m df' Hm g0.
  destruct (decide (n = m)) as [<- | Hne].
  - rewrite lookup_insert_eq in Hm. injection Hm as <-.
    unfold outcome. rewrite (load_data_reseeds n g0 (np_random σ)), El.
    reflexivity.
  - rewrite lookup_insert_ne in Hm by exact Hne. apply (Hs m df' Hm).
Qed.

(** A second call right after a first one returns the same outcome,
    whatever the table held. *)
Lemma cached_twice n σ :
  outcome (cached_load_data n) (snd (cached_load_data n σ))
  = outcome (cached_load_data n) σ.
Proof.
  unfold outcome, cached_load_data, cache_data.
  destruct (cache σ !! n) as [df |] eqn:E.
  - simpl. rewrite E. reflexivity.
  - destruct (load_data n (np_random σ)) as [[e | df] g] eqn:El; simpl.
    + rewrite E, (load_data_reseeds n g (np_random σ)), El. reflexivity.
    + rewrite lookup_insert_eq. reflexivity.
Qed.

End CacheFacts.

(** ** Dates *)

Lemma daily_lookup (t0 : Timestamp) (n : Z) (i : nat) (a : Timestamp) :
  ((fun k => t0 + k)%Z <$> seqZ 0 n) !! i = Some a <->
  a = (t0 + Z.of_nat i)%Z /\ (Z.of_nat i < n)%Z.
Proof.
  rewrite list_lookup_fmap, fmap_Some. split.
  - intros (k & Hk & ->). apply lookup_seqZ in Hk as [-> Hi].
    split; [f_equal; lia | exact Hi].
  - intros [-> Hi]. exists (Z.of_nat i). split; [| reflexivity].
    apply lookup_seqZ. split; [lia | exact Hi].
Qed.

Lemma daily_consecutive (t0 : Timestamp) (n : Z) (i : nat) (a b : Timestamp) :
  ((fun k => t0 + k)%Z <$> seqZ 0 n) !! i = Some a ->
  ((fun k => t0 + k)%Z <$> seqZ 0 n) !! S i = Some b ->
  b = (a + 1)%Z.
Proof.
  intros Ha Hb. apply daily_lookup in Ha as [-> _], Hb as [-> _]. lia.
Qed.

Lemma daily_increasing (t0 : Timestamp) (n : Z) (i j : nat) (a b : Timestamp) :
  (i < j)%nat ->
  ((fun k => t0 + k)%Z <$> seqZ 0 n) !! i = Some a ->
  ((fun k => t0 + k)%Z <$> seqZ 0 n) !! j = Some b ->
  (a < b)%Z.
Proof.
  intros Hij Ha Hb. apply daily_lookup in Ha as [-> _], Hb as [-> _]. lia.
Qed.

Lemma daily_NoDup (t0 : Timestamp) (n : Z) :
  NoDup ((fun k => t0 + k)%Z <$> seqZ 0 n).
Proof.
  apply NoDup_alt. intros i j x Hi Hj.
  apply daily_lookup in Hi as [-> _], Hj as [E _]. lia.
Qed.

(** The day count and the calendar agree on the 200 days from
    2023-01-01, which end on 2023-07-19. *)
Lemma calendar_2023 :
  civil_from_days <$>
    ((fun k => days_from_civil (mkDate 2023 1 1) + k)%Z <$> seqZ 0 200)
  = calendar_from (mkDate 2023 1 1) 200.
Proof. vm_compute. reflexivity. Qed.

(** They also agree around the leap day of 2000 and the missing leap day
    of 2100, and the epoch is day 0. *)
Lemma calendar_centuries :
  days_from_civil (mkDate 1970 1 1) = 0%Z
  /\ civil_from_days <$>
       ((fun k => days_from_civil (mkDate 1999 12 25) + k)%Z <$> seqZ 0 500)
     = calendar_from (mkDate 1999 12 25) 500
  /\ civil_from_days <$>
       ((fun k => days_from_civil (mkDate 2099 12 25) + k)%Z <$> seqZ 0 500)
     = calendar_from (mkDate 2099 12 25) 500.
Proof. repeat split; vm_compute; reflexivity. Qed.

Lemma calendar_2023_last :
  last (calendar_from (mkDate 2023 1 1) 200) = Some (mkDate 2023 7 19).
Proof. vm_compute. reflexivity. Qed.

Section DateFacts.
Context {R : RandomState}.

Lemma generated_dates n g df g' :
  load_data n g = (inr df, g') ->
  date df
  = (fun k => days_from_civil (mkDate 2023 1 1) + k)%Z <$> seqZ 0 n.
Proof.
  intros H. apply load_data_trace in H.
  destruct H as (s1 & s2 & s3 & s4 & s5 & s6 & s7 & s8 & H).
  destruct H as (_ & _ & _ & _ & _ & _ & _ & _ & _ & Hd & _).
  apply date_range_inv in Hd as [_ Hd]. exact Hd.
Qed.

End DateFacts.

(** ** The concrete generator meets the contract *)

Lemma Lcg_step_range (s : Z) : (0 <= Lcg.step s < Lcg.modulus)%Z.
Proof. unfold Lcg.step. apply Z.mod_pos_bound. reflexivity. Qed.

Lemma Lcg_laws : RandomStateLaws Lcg.random_state.
Proof.
  split.
  - intros max s Hmax. simpl. unfold Lcg.interval. simpl.
    pose proof (Z.mod_pos_bound (Lcg.step s) (max + 1) ltac:(lia)). lia.
  - intros s. simpl. unfold Lcg.double. simpl.
    pose proof (Lcg_step_range s) as Hs. unfold Lcg.modulus in Hs.
    unfold Qle, Qlt. simpl. lia.
Qed.

(** ** The score *)

Lemma py_min_compat (a a' b : Q) : a == a' -> py_min a b == py_min a' b.
Proof. intros E. rewrite !py_min_Qmin. now rewrite E. Qed.

Lemma category_compat (a a' : Q) : a == a' -> category a = category a'.
Proof.
  intros E. unfold category.
  assert (Hb : forall b, Qleb a b = Qleb a' b)
    by (intros b; apply Qleb_comp; [exact E | reflexivity]).
  now rewrite !Hb.
Qed.



(** The ladder puts a score in the bucket of the specification's
    table. *)
Lemma category_in_bucket (a : Q) : in_bucket a (fst (category a)).
Proof. unfold category. cmp_cases; simpl; lra. Qed.



(** ** The boundary cases in binary64 *)

Section Binary64Facts.
Import PrimFloat.
Local Open Scope float_scope.

(** The example of the form's default values and the boundary inputs,
    evaluated in the program's floating-point arithmetic: the sums 50,
    100 and 300 are computed exactly and fall in the lower bucket, a
    sum just above falls in the upper one, 600 is capped to 500, and a
    negative sum passes through. *)
Lemma binary64_boundary_cases :
  Binary64.score 50 80 30 20 1 40 = (54.5, Moderate)
  /\ Binary64.score 0 0 0 0 5 0 = (50, Good)
  /\ Binary64.score 125 0 0 0 0 0 = (50, Good)
  /\ snd (Binary64.score 0 0 0 0 5.00001 0) = Moderate
  /\ Binary64.score 0 0 0 0 10 0 = (100, Moderate)
  /\ Binary64.score 0 0 0 0 30 0 = (300, VeryPoor)
  /\ snd (Binary64.score 0 0 0 0 30.00001 0) = Severe
  /\ Binary64.score 500 500 0 0 30 0 = (500, Severe)
  /\ snd (Binary64.score (-1) 0 0 0 0 0) = Good.
Proof. repeat split; vm_compute; reflexivity. Qed.

End Binary64Facts.

(** * The claims *)

(** ** C1: formula exactness *)



(** ** C8: the range invariant *)



(** ** C10: the clip never acts on generated data *)



(** ** C2: the score is [min(raw, 500)] *)



(** ** C3: the category ladder *)



(** ** C5: negative inputs *)




(** ** C4: a size that is not positive *)

(** C4, counterexample.  [load_data(0)] does not fail: it returns the
    frame with no record. *)
Lemma load_data_zero_returns_empty :
  outcome (load_data (R := Lcg.random_state) 0) 0%Z = inr empty_frame.
Proof. vm_compute. reflexivity. Qed.

(** C4, amended.  For a negative size [load_data] fails with
    [ValueError], raised by the first sampling call; for the size 0 it
    returns the empty frame. *)
Theorem load_data_nonpositive {R : RandomState} (n : Z) (g : rk_state) :
  (n <= 0)%Z ->
  ((n < 0)%Z /\ outcome (load_data n) g = inl ValueError)
  \/ (n = 0%Z /\ outcome (load_data n) g = inr empty_frame).
Proof.
  intros Hn. destruct (Z.eq_dec n 0%Z) as [-> | Hne].
  - right. split; reflexivity.
  - left. assert (Hlt : (n < 0)%Z) by lia. split; [exact Hlt |].
    unfold outcome. now rewrite (load_data_negative n g Hlt).
Qed.

(** The amended statement of C4 at the size -5. *)
Lemma load_data_nonpositive_witness :
  outcome (load_data (R := Lcg.random_state) (-5)) 0%Z = inl ValueError.
Proof.
  destruct (load_data_nonpositive (R := Lcg.random_state) (-5) 0%Z)
    as [[_ H] | [H _]].
  - vm_compute. discriminate.
  - exact H.
  - discriminate H.
Defined.

(** ** C6: determinism *)

(** C6.  [load_data] reseeds the generator with 42 on entry, so its
    outcome for a size [n] is the same from every generator state; the
    memoised function returns that same outcome from every session whose
    table is sound, and a second call right after a first returns what the
    first returned.  For [n = 200] the common outcome is a frame. *)
Theorem load_data_deterministic {R : RandomState} (n : Z) :
  (forall g1 g2 : rk_state,
     outcome (load_data n) g1 = outcome (load_data n) g2)
  /\ (forall σ1 σ2 : Session,
        cache_sound (cache σ1) -> cache_sound (cache σ2) ->
        outcome (cached_load_data n) σ1 = outcome (cached_load_data n) σ2)
  /\ (forall σ : Session,
        outcome (cached_load_data n) (snd (cached_load_data n σ))
        = outcome (cached_load_data n) σ)
  /\ (forall g1 g2 : rk_state,
        exists df,
          outcome load_data_default (fresh_session g1) = inr df
          /\ outcome load_data_default (fresh_session g2) = inr df
          /\ outcome load_data_default
               (snd (load_data_default (fresh_session g1))) = inr df).
Proof.
  split; [| split; [| split]].
  - intros g1 g2. unfold outcome.
    now rewrite (load_data_reseeds n g1 g2).
  - intros σ1 σ2 H1 H2. rewrite !cached_outcome by assumption.
    unfold outcome.
    now rewrite (load_data_reseeds n (np_random σ1) (np_random σ2)).
  - intros σ. apply cached_twice.
  - intros g1 g2. unfold load_data_default.
    destruct (load_data_total 200 g1 ltac:(lia)) as (df & g' & E).
    exists df.
    assert (E1 : outcome (cached_load_data 200) (fresh_session g1) = inr df).
    { rewrite cached_outcome by apply cache_sound_empty.
      unfold outcome. simpl. now rewrite E. }
    split; [exact E1 |]. split.
    + rewrite cached_outcome by apply cache_sound_empty.
      unfold outcome. simpl.
      now rewrite (load_data_reseeds 200 g2 g1), E.
    + rewrite cached_twice. exact E1.
Qed.

(** The statement of C6 on the concrete generator: two fresh sessions
    with different generator states give the same 200-record frame. *)
Lemma load_data_deterministic_witness :
  outcome (cached_load_data 200) (fresh_session (R := Lcg.random_state) 0%Z)
  = outcome (cached_load_data 200) (fresh_session (R := Lcg.random_state) 7%Z).
Proof.
  apply (load_data_deterministic (R := Lcg.random_state) 200).
  - apply cache_sound_empty.
  - apply cache_sound_empty.
Defined.

(** ** C7: the 200 dates *)

(** C7.  [load_data(200)] returns a frame of exactly 200 records whose
    dates are the 200 calendar days from 2023-01-01 through 2023-07-19:
    each one day after the one before, strictly increasing, without
    repetition. *)
Theorem load_data_200_dates {R : RandomState} (g : rk_state) :
  exists df g',
    load_data 200 g = (inr df, g')
    /\ len df = 200%nat
    /\ (forall i, is_Some (iloc df i) <-> (i < 200)%nat)
    /\ civil_from_days <$> date df = calendar_from (mkDate 2023 1 1) 200
    /\ civil_from_days <$> head (date df) = Some (mkDate 2023 1 1)
    /\ civil_from_days <$> last (date df) = Some (mkDate 2023 7 19)
    /\ (forall i a b, date df !! i = Some a -> date df !! S i = Some b ->
                      b = (a + 1)%Z)
    /\ (forall i j a b, (i < j)%nat -> date df !! i = Some a ->
                        date df !! j = Some b -> (a < b)%Z)
    /\ NoDup (date df).
Proof.
  destruct (load_data_total 200 g ltac:(lia)) as (df & g' & E).
  exists df, g'. split; [exact E |].
  pose proof (generated_dates _ _ _ _ E) as Hd.
  split; [exact (generated_len _ _ _ _ E) |].
  split; [intros i; exact (generated_iloc _ _ _ _ i E) |].
  rewrite Hd.
  split; [exact calendar_2023 |].
  split; [vm_compute; reflexivity |].
  split; [vm_compute; reflexivity |].
  split; [intros i a b; apply daily_consecutive |].
  split; [intros i j a b; apply daily_increasing |].
  apply daily_NoDup.
Qed.

(** ** C9: the weather fields are dead inputs *)

Lemma clip1_compat (x y : Q) : x == y -> clip1 0 500 x == clip1 0 500 y.
Proof.
  intros E. rewrite !clip1_clamp by lra. apply clamp_compat. exact E.
Qed.

(** C9.  The AQI does not depend on Temperature, Humidity or Wind.
    Score: two forms with equal pollutant values get equal scores and the
    same category, whatever their weather values.  Generation: two
    generated records with equal pollutant fields have equal [AQI], and
    the derived column is unchanged when the three weather columns (and
    the dates) are replaced. *)
Theorem AQI_ignores_weather :
  (forall s1 s2 : Sidebar,
     pm25 s1 == pm25 s2 -> pm10 s1 == pm10 s2 -> no2 s1 == no2 s2 ->
     so2 s1 == so2 s2 -> co s1 == co s2 -> o3 s1 == o3 s2 ->
     exists a1 a2 c,
       score s1 = inr (a1, c) /\ score s2 = inr (a2, c) /\ a1 == a2)
  /\ (forall (R1 R2 : RandomState) n1 n2 g1 g1' g2 g2' df1 df2 i1 i2 r1 r2,
        load_data (R := R1) n1 g1 = (inr df1, g1') ->
        load_data (R := R2) n2 g2 = (inr df2, g2') ->
        iloc df1 i1 = Some r1 -> iloc df2 i2 = Some r2 ->
        r_PM2_5 r1 = r_PM2_5 r2 -> r_PM10 r1 = r_PM10 r2 ->
        r_NO2 r1 = r_NO2 r2 -> r_SO2 r1 = r_SO2 r2 ->
        r_CO r1 == r_CO r2 -> r_O3 r1 = r_O3 r2 ->
        r_AQI r1 == r_AQI r2)
  /\ (forall (d : Data) (t h w t' h' w' : list Q) (dt dt' : list Timestamp),
        AQI_column (mkData (PM2_5 d) (PM10 d) (NO2 d) (SO2 d) (CO d) (O3 d)
                           t h w dt)
        = AQI_column (mkData (PM2_5 d) (PM10 d) (NO2 d) (SO2 d) (CO d) (O3 d)
                             t' h' w' dt')).
Proof.
  split; [| split].
  - intros s1 s2 E1 E2 E3 E4 E5 E6.
    assert (E : prediction s1 == prediction s2).
    { unfold prediction. apply py_min_compat. unfold weighted_sum.
      now rewrite E1, E2, E3, E4, E5, E6. }
    exists (prediction s1), (prediction s2), (fst (category (prediction s1))).
    split; [reflexivity |]. split; [| exact E].
    unfold score. now rewrite (category_compat _ _ E).
  - intros R1 R2 n1 n2 g1 g1' g2 g2' df1 df2 i1 i2 r1 r2
           L1 L2 H1 H2 Ea Eb Ec Ed Ee Ef.
    rewrite (generated_row_AQI _ _ _ _ _ _ L1 H1).
    rewrite (generated_row_AQI _ _ _ _ _ _ L2 H2).
    apply clip1_compat. unfold row_weighted.
    now rewrite Ea, Eb, Ec, Ed, Ee, Ef.
  - intros d t h w t' h' w' dt dt'. reflexivity.
Qed.

(** The statement of C9 at the default form against the same pollutant
    values in freezing, dry, stormy weather. *)
Lemma AQI_ignores_weather_witness :
  exists a1 a2 c,
    score default_sidebar = inr (a1, c)
    /\ score (mkSidebar 50 80 30 20 1 40 (-10) 0 20) = inr (a2, c)
    /\ a1 == a2.
Proof.
  apply (proj1 AQI_ignores_weather); reflexivity.
Defined.

(** * Further properties of the script *)

(** ** The generator: shape, dates, growth *)

Section GeneratorShape.
Context {R : RandomState}.


Lemma load_data_success_nonneg n g df g' :
  load_data n g = (inr df, g') -> (0 <= n)%Z.
Proof.
  intros H. destruct (Z.lt_ge_cases n 0) as [Hlt | Hge]; [| exact Hge].
  rewrite (load_data_negative n g Hlt) in H. discriminate H.
Qed.

Lemma draws_prefix {A} (draw : rk_state -> A * rk_state) (n m : nat) s :
  (n <= m)%nat ->
  fst (draws draw n s) = take n (fst (draws draw m s)).
Proof.
  revert m s. induction n as [| k IH]; intros m s Hle.
  - reflexivity.
  - destruct m as [| m']; [lia |]. simpl.
    destruct (draw s) as [x s1].
    specialize (IH m' s1 ltac:(lia)).
    destruct (draws draw k s1) as [xs s2].
    destruct (draws draw m' s1) as [ys s3].
    simpl in *. now rewrite IH.
Qed.

Lemma sample_value {A} (draw : rk_state -> A * rk_state) size s xs s' :
  sample draw size s = (inr xs, s') ->
  xs = fst (draws draw (Z.to_nat size) s).
Proof.
  unfold sample. destruct (size <? 0)%Z; [discriminate |].
  destruct (draws draw (Z.to_nat size) s) as [ys s2].
  intros H. injection H as <- _. reflexivity.
Qed.

End GeneratorShape.



(** X2.  In a frame generated for any size, the date at index [i] is
    2023-01-01 plus [i] days (and there is one exactly below the size),
    so the first date is 2023-01-01 and the dates are consecutive days,
    strictly increasing and free of repetitions. *)
Theorem generated_dates_daily {R : RandomState} (n : Z) (g g' : rk_state)
    (df : DataFrame) :
  load_data n g = (inr df, g') ->
  (forall i t, date df !! i = Some t <->
     t = (days_from_civil (mkDate 2023 1 1) + Z.of_nat i)%Z
     /\ (Z.of_nat i < n)%Z)
  /\ (forall t, date df !! 0%nat = Some t ->
                civil_from_days t = mkDate 2023 1 1)
  /\ (forall i a b, date df !! i = Some a -> date df !! S i = Some b ->
                    b = (a + 1)%Z)
  /\ (forall i j a b, (i < j)%nat -> date df !! i = Some a ->
                      date df !! j = Some b -> (a < b)%Z)
  /\ NoDup (date df).
Proof.
  intros E. rewrite (generated_dates _ _ _ _ E).
  split; [intros i t; apply daily_lookup |].
  split.
  { intros t Ht. apply daily_lookup in Ht as [-> _]. vm_compute. reflexivity. }
  split; [intros i a b; apply daily_consecutive |].
  split; [intros i j a b; apply daily_increasing |].
  apply daily_NoDup.
Qed.

(** X2 on the concrete generator: the dates of the frame for [n = 3]. *)
Lemma generated_dates_daily_witness :
  exists df,
    outcome (load_data (R := Lcg.random_state) 3) 0%Z = inr df
    /\ civil_from_days <$> date df
       = [mkDate 2023 1 1; mkDate 2023 1 2; mkDate 2023 1 3]
    /\ NoDup (date df).
Proof.
  eexists. split; [vm_compute; reflexivity |].
  split; [vm_compute; reflexivity |].
  apply (generated_dates_daily (R := Lcg.random_state) 3 0%Z _ _
           ltac:(vm_compute; reflexivity)).
Defined.

Lemma daily_take (t0 : Timestamp) (n m : Z) :
  (0 <= n <= m)%Z ->
  (fun k => t0 + k)%Z <$> seqZ 0 n
  = take (Z.to_nat n) ((fun k => t0 + k)%Z <$> seqZ 0 m).
Proof.
  intros Hnm. apply list_eq. intros i.
  destruct (decide (i < Z.to_nat n)%nat) as [Hi | Hi].
  - rewrite lookup_take_lt by exact Hi.
    destruct (((fun k => t0 + k)%Z <$> seqZ 0 m) !! i) as [b |] eqn:Eb.
    + apply daily_lookup in Eb as [-> _]. apply daily_lookup. lia.
    + destruct (((fun k => t0 + k)%Z <$> seqZ 0 n) !! i) as [a |] eqn:Ea;
        [| reflexivity].
      apply daily_lookup in Ea as [-> Hlt].
      assert (Hm : ((fun k => t0 + k)%Z <$> seqZ 0 m) !! i
                   = Some (t0 + Z.of_nat i)%Z) by (apply daily_lookup; lia).
      rewrite Hm in Eb. discriminate Eb.
  - rewrite lookup_take_ge by lia.
    destruct (((fun k => t0 + k)%Z <$> seqZ 0 n) !! i) as [a |] eqn:Ea;
      [| reflexivity].
    apply daily_lookup in Ea as [_ Hlt]. lia.
Qed.

(** X3.  Growing the data set keeps its beginning only in part: for
    [n <= m] the PM2.5 column and the dates of the frame for [n] are the
    first [n] entries of those of the frame for [m], since PM2.5 is the
    first sample drawn after the seed and the dates use no randomness. *)
Theorem load_data_growth {R : RandomState} (n m : Z)
    (g1 g1' g2 g2' : rk_state) (df1 df2 : DataFrame) :
  (n <= m)%Z ->
  load_data n g1 = (inr df1, g1') ->
  load_data m g2 = (inr df2, g2') ->
  PM2_5 df1 = take (Z.to_nat n) (PM2_5 df2)
  /\ date df1 = take (Z.to_nat n) (date df2).
Proof.
  intros Hnm E1 E2.
  pose proof (load_data_success_nonneg _ _ _ _ E1) as Hn.
  rewrite (generated_dates _ _ _ _ E1), (generated_dates _ _ _ _ E2).
  split; [| apply daily_take; lia].
  apply load_data_trace in E1, E2.
  destruct E1 as (s1 & ? & ? & ? & ? & ? & ? & ? & H1 & _).
  destruct E2 as (t1 & ? & ? & ? & ? & ? & ? & ? & H2 & _).
  apply randint_inv in H1 as [_ H1], H2 as [_ H2].
  apply sample_value in H1, H2. rewrite H1, H2.
  apply draws_prefix. lia.
Qed.

(** X3 on the concrete generator, with the frames for 2 and 4 records;
    the second column, drawn from the state the first sample leaves,
    is not kept. *)
Lemma load_data_growth_witness :
  exists df1 df2,
    outcome (load_data (R := Lcg.random_state) 2) 0%Z = inr df1
    /\ outcome (load_data (R := Lcg.random_state) 4) 0%Z = inr df2
    /\ PM2_5 df1 = take 2 (PM2_5 df2)
    /\ date df1 = take 2 (date df2)
    /\ PM10 df1 <> take 2 (PM10 df2).
Proof.
  eexists _, _.
  split; [vm_compute; reflexivity |].
  split; [vm_compute; reflexivity |].
  destruct (load_data_growth (R := Lcg.random_state) 2 4 0%Z _ 0%Z _ _ _
              ltac:(lia)
              ltac:(vm_compute; reflexivity) ltac:(vm_compute; reflexivity))
    as [Hp Hd].
  split; [exact Hp |]. split; [exact Hd |].
  vm_compute. discriminate.
Defined.

(** ** The derived column on arbitrary data, and the two copies of the
    formula *)

Lemma assigned_row_AQI (d : Data) (i : nat) (row : Row) :
  iloc (assign_AQI d) i = Some row ->
  r_AQI row = clip1 0 500 (row_weighted row).
Proof.
  intros Hrow. apply iloc_Some in Hrow. simpl in Hrow.
  destruct Hrow as (Ha & Hb & Hc & He & Hf & Hg & _ & _ & _ & _ & Hq).
  rewrite (AQI_column_lookup _ _ _ _ _ _ _ _ Ha Hb Hc He Hf Hg) in Hq.
  injection Hq as <-. reflexivity.
Qed.



(** X5.  The formula is written twice, for the data set (lines 27-31)
    and for the form (lines 104-108).  On any record of a frame the
    [AQI] field is the larger of 0 and the prediction for the same
    values: the two agree when the weighted sum is not negative, and for
    a negative sum the data set holds 0 where the form reports the
    negative sum. *)
Theorem dataset_AQI_vs_prediction (d : Data) (i : nat) (row : Row) :
  iloc (assign_AQI d) i = Some row ->
  r_AQI row == Qmax 0 (prediction (sidebar_of_row row))
  /\ (0 <= weighted_sum (sidebar_of_row row) ->
      r_AQI row == prediction (sidebar_of_row row))
  /\ (weighted_sum (sidebar_of_row row) < 0 ->
      r_AQI row == 0 /\ prediction (sidebar_of_row row) < 0).
Proof.
  intros Hrow. rewrite (assigned_row_AQI _ _ _ Hrow).
  change (row_weighted row) with (weighted_sum (sidebar_of_row row)).
  unfold prediction. set (x := weighted_sum (sidebar_of_row row)).
  assert (Hm : forall y, 0 <= y -> Qmax 0 y == y)
    by (intros y Hy; apply Q.max_r; exact Hy).
  assert (Hm0 : forall y, y <= 0 -> Qmax 0 y == 0)
    by (intros y Hy; apply Q.max_l; exact Hy).
  split; [| split].
  - unfold clip1, py_min. cmp_cases;
      first [ rewrite Hm by lra; lra | rewrite Hm0 by lra; lra ].
  - intros Hx. unfold clip1, py_min. cmp_cases; lra.
  - intros Hx. unfold clip1, py_min. cmp_cases; lra.
Qed.

(** X5 on a record with PM2.5 at -10 and nothing else: the data set
    holds 0, the form reports a negative score. *)
Lemma dataset_AQI_vs_prediction_witness :
  exists row,
    iloc (assign_AQI (mkData [-10]%Z [0]%Z [0]%Z [0]%Z [0] [0]%Z
                             [25] [60] [2] [0]%Z)) 0 = Some row
    /\ r_AQI row == 0 /\ prediction (sidebar_of_row row) < 0.
Proof.
  eexists. split; [vm_compute; reflexivity |].
  apply (dataset_AQI_vs_prediction
           (mkData [-10]%Z [0]%Z [0]%Z [0]%Z [0] [0]%Z [25] [60] [2] [0]%Z)
           0 _ ltac:(vm_compute; reflexivity)).
  vm_compute. reflexivity.
Defined.

(** X6.  With a generator that keeps its documented ranges, every
    generated record is a valid entry of the form (each value within the
    bounds of its widget), the form's score for it equals its [AQI]
    field, and its category is never [Severe]. *)
Theorem generated_row_as_form {R : RandomState} {L : RandomStateLaws R}
    (n : Z) (g g' : rk_state) (df : DataFrame) (i : nat) (row : Row) :
  load_data n g = (inr df, g') ->
  iloc df i = Some row ->
  widget_bounds (sidebar_of_row row)
  /\ exists a c,
       score (sidebar_of_row row) = inr (a, c)
       /\ a == r_AQI row /\ in_bucket (r_AQI row) c /\ c <> Severe.
Proof.
  intros Hload Hrow.
  pose proof (generated_row_domain _ _ _ _ _ _ Hload Hrow) as Hdom.
  pose proof (domain_sum_bounds _ Hdom) as [Hlo Hhi].
  pose proof (generated_row_AQI _ _ _ _ _ _ Hload Hrow) as HA.
  rewrite clip1_id in HA by lra.
  split.
  - unfold in_domain in Hdom.
    destruct Hdom as ([A1 A2] & [B1 B2] & [C1 C2] & [D1 D2] & [E1 E2]
                      & [F1 F2] & [T1 T2] & [U1 U2] & [W1 W2]).
    assert (A2' : (r_PM2_5 row <= 500)%Z) by lia.
    assert (B2' : (r_PM10 row <= 500)%Z) by lia.
    assert (C2' : (r_NO2 row <= 200)%Z) by lia.
    assert (D2' : (r_SO2 row <= 200)%Z) by lia.
    assert (F2' : (r_O3 row <= 300)%Z) by lia.
    assert (A0 : (0 <= r_PM2_5 row)%Z) by lia.
    assert (B0 : (0 <= r_PM10 row)%Z) by lia.
    assert (C0 : (0 <= r_NO2 row)%Z) by lia.
    assert (D0 : (0 <= r_SO2 row)%Z) by lia.
    assert (F0 : (0 <= r_O3 row)%Z) by lia.
    rewrite Zle_Qle in A2', B2', C2', D2', F2', A0, B0, C0, D0, F0.
    unfold widget_bounds, within, sidebar_of_row. simpl.
    change (inject_Z 0) with 0 in *. change (inject_Z 500) with 500 in *.
    change (inject_Z 200) with 200 in *. change (inject_Z 300) with 300 in *.
    repeat split; lra.
  - assert (Hp : prediction (sidebar_of_row row) = row_weighted row).
    { unfold prediction.
      change (weighted_sum (sidebar_of_row row)) with (row_weighted row).
      apply py_min_le_l. lra. }
    exists (prediction (sidebar_of_row row)),
           (fst (category (prediction (sidebar_of_row row)))).
    split; [reflexivity |]. rewrite Hp, HA.
    split; [reflexivity |]. split; [apply category_in_bucket |].
    intros Hc. pose proof (category_in_bucket (row_weighted row)) as Hb.
    rewrite Hc in Hb. simpl in Hb. lra.
Qed.

(** X6 at the first record of the three-record frame of the concrete
    generator. *)
Lemma generated_row_as_form_witness :
  exists df row,
    outcome (load_data (R := Lcg.random_state) 3) 0%Z = inr df
    /\ iloc df 0 = Some row
    /\ widget_bounds (sidebar_of_row row).
Proof.
  eexists _, _.
  split; [vm_compute; reflexivity |].
  split; [vm_compute; reflexivity |].
  apply (generated_row_as_form (R := Lcg.random_state) (L := Lcg_laws)
           3 0%Z _ _ 0%nat _
           ltac:(vm_compute; reflexivity) ltac:(vm_compute; reflexivity)).
Defined.

(** ** The score: order, bounds, colours *)

(** X7.  The category never decreases when the score increases: the
    ladder is monotone for the order Good, Moderate, Poor, VeryPoor,
    Severe. *)
Theorem category_monotone (p q : Q) :
  p <= q -> (rank (fst (category p)) <= rank (fst (category q)))%nat.
Proof.
  intros Hpq.
  pose proof (category_in_bucket p) as Hp.
  pose proof (category_in_bucket q) as Hq.
  destruct (fst (category p)), (fst (category q)); simpl in *;
    try lia; exfalso; lra.
Qed.

(** X7 across the first threshold. *)
Lemma category_monotone_witness :
  (rank (fst (category 50)) <= rank (fst (category 50.01)))%nat
  /\ fst (category 50) = Good /\ fst (category 50.01) = Moderate.
Proof.
  split; [| split; reflexivity].
  apply category_monotone. vm_compute. discriminate.
Defined.

Lemma weighted_sum_monotone (s1 s2 : Sidebar) :
  pm25 s1 <= pm25 s2 -> pm10 s1 <= pm10 s2 -> no2 s1 <= no2 s2 ->
  so2 s1 <= so2 s2 -> co s1 <= co s2 -> o3 s1 <= o3 s2 ->
  weighted_sum s1 <= weighted_sum s2.
Proof. unfold weighted_sum. intros. lra. Qed.

Lemma py_min_monotone (a a' b : Q) : a <= a' -> py_min a b <= py_min a' b.
Proof. intros H. unfold py_min. cmp_cases; lra. Qed.

(** X8.  Raising any pollutant value never lowers the result: if every
    pollutant of one form is at most that of another, so are the
    predictions, and the category of the first is not more severe. *)
Theorem prediction_monotone (s1 s2 : Sidebar) :
  pm25 s1 <= pm25 s2 -> pm10 s1 <= pm10 s2 -> no2 s1 <= no2 s2 ->
  so2 s1 <= so2 s2 -> co s1 <= co s2 -> o3 s1 <= o3 s2 ->
  prediction s1 <= prediction s2
  /\ (rank (fst (category (prediction s1)))
      <= rank (fst (category (prediction s2))))%nat.
Proof.
  intros H1 H2 H3 H4 H5 H6.
  assert (Hp : prediction s1 <= prediction s2).
  { unfold prediction. apply py_min_monotone.
    apply weighted_sum_monotone; assumption. }
  split; [exact Hp |].
  pose proof (category_in_bucket (prediction s1)) as Hb1.
  pose proof (category_in_bucket (prediction s2)) as Hb2.
  destruct (fst (category (prediction s1))),
           (fst (category (prediction s2))); simpl in *;
    try lia; exfalso; lra.
Qed.

(** X8 from the default form to the same form with CO raised to 6: the
    category goes from Moderate to Poor. *)
Lemma prediction_monotone_witness :
  prediction default_sidebar <= prediction (mkSidebar 50 80 30 20 6 40 25 60 2)
  /\ fst (category (prediction default_sidebar)) = Moderate
  /\ fst (category (prediction (mkSidebar 50 80 30 20 6 40 25 60 2))) = Poor.
Proof.
  split; [| split; vm_compute; reflexivity].
  apply (prediction_monotone default_sidebar
           (mkSidebar 50 80 30 20 6 40 25 60 2));
    vm_compute; discriminate.
Defined.

(** X9.  The prediction never exceeds 500 nor the weighted sum, for any
    input.  For values within the bounds of the widgets it is not
    negative either, so the bar of the gauge lies within the limits of
    its axis; and those bounds do let the sum pass 500 (up to 865), so
    the cap is needed. *)
Theorem gauge_within_axis (s : Sidebar) :
  (prediction s <= 500 /\ prediction s <= weighted_sum s)
  /\ (widget_bounds s ->
      fst (xlim (gauge s)) <= bar_width (gauge s)
      /\ bar_width (gauge s) <= snd (xlim (gauge s))
      /\ weighted_sum s <= 865).
Proof.
  assert (Hp : prediction s <= 500 /\ prediction s <= weighted_sum s).
  { unfold prediction, py_min. cmp_cases; lra. }
  split; [exact Hp |].
  unfold widget_bounds, within. simpl.
  intros ([A1 A2] & [B1 B2] & [C1 C2] & [D1 D2] & [E1 E2] & [F1 F2] & _).
  assert (H0 : 0 <= weighted_sum s) by (unfold weighted_sum; lra).
  assert (H1 : weighted_sum s <= 865) by (unfold weighted_sum; lra).
  split; [| split; [apply Hp | exact H1]].
  unfold prediction, py_min. cmp_cases; lra.
Qed.

(** X9 at the largest values the widgets accept: the sum is 865, the bar
    stops at 500. *)
Lemma gauge_within_axis_witness :
  weighted_sum (mkSidebar 500 500 200 200 50 300 50 100 20) == 865
  /\ bar_width (gauge (mkSidebar 500 500 200 200 50 300 50 100 20)) <= 500
  /\ 0 <= bar_width (gauge (mkSidebar 500 500 200 200 50 300 50 100 20)).
Proof.
  split; [vm_compute; reflexivity |].
  destruct (gauge_within_axis (mkSidebar 500 500 200 200 50 300 50 100 20))
    as [_ H].
  destruct H as (H0 & H1 & _).
  - vm_compute. repeat split; discriminate.
  - split; [exact H1 | exact H0].
Defined.

(** X10.  The colour of the gauge is a faithful code of the category:
    two scores get the same colour exactly when they get the same
    category. *)
Theorem color_iff_category (p q : Q) :
  snd (category p) = snd (category q) <-> fst (category p) = fst (category q).
Proof.
  unfold category.
  destruct (Qleb p 50), (Qleb p 100), (Qleb p 200), (Qleb p 300),
           (Qleb q 50), (Qleb q 100), (Qleb q 200), (Qleb q 300);
    simpl; split; intros H; first [reflexivity | discriminate H].
Qed.

(** ** Columns by name, and the overview *)

Lemma assoc_is_Some {A} (key : string) (l : list (string * A)) :
  is_Some (assoc key l) <-> key ∈ (fst <$> l).
Proof.
  induction l as [| [k v] l IH]; simpl.
  - split; [intros [x H]; discriminate H | intros H; inversion H].
  - destruct (String.eqb_spec k key) as [-> | Hne].
    + split; [intros _; left | intros _; eexists; reflexivity].
    + rewrite IH. split.
      * intros H. right. exact H.
      * intros H. inversion H; subst; [congruence | assumption].
Qed.

Lemma assoc_elem_of {A} (key : string) (l : list (string * A)) (v : A) :
  assoc key l = Some v -> (key, v) ∈ l.
Proof.
  induction l as [| [k w] l IH]; simpl; [discriminate |].
  destruct (String.eqb_spec k key) as [-> | Hne].
  - intros H. injection H as ->. left.
  - intros H. right. apply IH. exact H.
Qed.

(** X11.  [df[key]] finds a column exactly for the eleven names of the
    frame (any other key is a [KeyError]), and the column found is the
    one listed under that name.  The histogram's selector offers six
    options, and each of them names a numeric column of the frame. *)
Theorem getitem_by_name (df : DataFrame) (key : string) (choice : nat) :
  (is_Some (getitem df key) <->
   key ∈ [ "PM2.5"; "PM10"; "NO2"; "SO2"; "CO"; "O3"; "Temperature";
           "Humidity"; "Wind"; "date"; "AQI" ]%string)
  /\ (forall s, getitem df key = Some s -> (key, s) ∈ items df)
  /\ (is_Some (histogram_column df choice) <-> (choice < 6)%nat)
  /\ (forall s, histogram_column df choice = Some s ->
                is_numeric s = true /\ s ∈ (snd <$> items df)).
Proof.
  split; [apply (assoc_is_Some key (items df)) |].
  split; [intros s; apply assoc_elem_of |].
  unfold histogram_column, selectbox, pollutants.
  do 6 (destruct choice as [| choice];
        [ split;
          [ split; [intros _; lia | intros _; eexists; reflexivity]
          | intros s H; injection H as <-; split;
            [reflexivity | set_solver] ]
        | ]).
  split.
  - split; [intros [s H]; discriminate H | intros H; lia].
  - intros s H. discriminate H.
Qed.

(** X11 on the concrete generator: the fifth option is CO, a float
    column; a key that is no column is not found. *)
Lemma getitem_by_name_witness :
  exists df,
    outcome (load_data (R := Lcg.random_state) 2) 0%Z = inr df
    /\ histogram_column df 4 = Some (Float64 (CO df))
    /\ getitem df "Ozone" = None
    /\ is_Some (getitem df "AQI").
Proof.
  eexists. split; [vm_compute; reflexivity |].
  split; [reflexivity |]. split; [reflexivity |].
  apply (getitem_by_name _ "AQI" 0). set_solver.
Defined.

(** X12.  [df[keys]] succeeds exactly when every key is a column of the
    frame, and then returns one column per key, under the keys, in their
    order; for [pollutants] it is the six pollutant columns, without the
    weather, the dates and the AQI. *)
Theorem getitems_by_names (df : DataFrame) (keys : list string) :
  (is_Some (getitems df keys) <->
   Forall (fun k => k ∈ (fst <$> items df)) keys)
  /\ (forall l, getitems df keys = Some l ->
                fst <$> l = keys /\ Forall (fun kv => kv ∈ items df) l)
  /\ getitems df pollutants
     = Some [ ("PM2.5"%string, Int64 (PM2_5 df));
              ("PM10"%string, Int64 (PM10 df));
              ("NO2"%string, Int64 (NO2 df));
              ("SO2"%string, Int64 (SO2 df));
              ("CO"%string, Float64 (CO df));
              ("O3"%string, Int64 (O3 df)) ].
Proof.
  split; [| split; [| reflexivity]].
  - unfold getitems. rewrite mapM_is_Some.
    apply Forall_proper; [| reflexivity]. intros k. unfold compose.
    rewrite fmap_is_Some. apply (assoc_is_Some k (items df)).
  - unfold getitems. intros l H. apply mapM_Some in H.
    induction H as [| k kv keys l Hk _ IH].
    + split; [reflexivity | constructor].
    + destruct IH as [IH1 IH2].
      destruct (getitem df k) as [s |] eqn:E; [| discriminate Hk].
      injection Hk as <-. split.
      * rewrite fmap_cons. simpl. now rewrite IH1.
      * constructor; [apply assoc_elem_of; exact E | exact IH2].
Qed.

(** X12 on the empty frame: one unknown key among known ones fails the
    selection. *)
Lemma getitems_by_names_witness :
  getitems empty_frame [ "CO"; "Ozone" ]%string = None
  /\ is_Some (getitems empty_frame [ "CO"; "AQI" ]%string).
Proof.
  split; [reflexivity |].
  apply (getitems_by_names empty_frame [ "CO"; "AQI" ]%string).
  repeat constructor; set_solver.
Defined.


(** ** The memo table across reruns *)

Section CacheReruns.
Context {R : RandomState}.

Lemma run_calls_sound (ns : list Z) (σ : Session) :
  cache_sound (cache σ) -> cache_sound (cache (run_calls ns σ)).
Proof.
  revert σ. induction ns as [| n ns IH]; intros σ Hs; simpl.
  - exact Hs.
  - apply IH, cached_preserves_sound, Hs.
Qed.


End CacheReruns.

(** X14.  Memoisation is transparent: after any sequence of calls from a
    fresh session, with whatever arguments, the table is sound and the
    next call of the decorated function returns exactly what the
    undecorated [load_data] returns for that argument. *)
Theorem cache_transparent {R : RandomState} (ns : list Z) (g g0 : rk_state)
    (n : Z) :
  cache_sound (cache (run_calls ns (fresh_session g)))
  /\ outcome (cached_load_data n) (run_calls ns (fresh_session g))
     = outcome (load_data n) g0.
Proof.
  assert (Hs : cache_sound (cache (run_calls ns (fresh_session g))))
    by (apply run_calls_sound, cache_sound_empty).
  split; [exact Hs |].
  rewrite (cached_outcome n _ Hs). unfold outcome.
  now rewrite (load_data_reseeds n _ g0).
Qed.



(** X16.  The side effect on numpy's global generator depends on the
    table: a hit returns without touching the session, so the generator
    is not reseeded; a miss leaves the generator in a state fixed by the
    size alone.  In both cases a second call with the same size changes
    nothing any more. *)
Theorem cache_generator_effect {R : RandomState} (n : Z) (σ : Session) :
  (is_Some (cache σ !! n) -> snd (cached_load_data n σ) = σ)
  /\ (cache σ !! n = None ->
      forall g, np_random (snd (cached_load_data n σ)) = snd (load_data n g))
  /\ snd (cached_load_data n (snd (cached_load_data n σ)))
     = snd (cached_load_data n σ).
Proof.
  unfold cached_load_data, cache_data.
  destruct (cache σ !! n) as [df0 |] eqn:E.
  - simpl. rewrite E. repeat split.
    intros H. discriminate H.
  - split; [intros [x H]; discriminate H |].
    destruct (load_data n (np_random σ)) as [[e0 | df0] g1] eqn:El; simpl.
    + split.
      * intros _ g. rewrite (load_data_reseeds n g (np_random σ)), El.
        reflexivity.
      * rewrite E, (load_data_reseeds n g1 (np_random σ)), El. reflexivity.
    + split.
      * intros _ g. rewrite (load_data_reseeds n g (np_random σ)), El.
        reflexivity.
      * rewrite lookup_insert_eq. reflexivity.
Qed.

(** X16 on the concrete generator: after one call with 2, a second call
    leaves the session as it is. *)
Lemma cache_generator_effect_witness :
  snd (cached_load_data 2
         (snd (cached_load_data 2 (fresh_session (R := Lcg.random_state) 5%Z))))
  = snd (cached_load_data 2 (fresh_session (R := Lcg.random_state) 5%Z)).
Proof.
  destruct (cache_generator_effect (R := Lcg.random_state) 2
              (snd (cached_load_data 2
                      (fresh_session (R := Lcg.random_state) 5%Z))))
    as (H & _ & _).
  apply H. eexists. vm_compute. reflexivity.
Defined.

(** ** The ladder and the cap in binary64

    The comparisons of lines 108-125 on the floats themselves, through
    the specification of the primitive comparisons; NaN and the
    infinities are floats like the others here. *)

Section Binary64Order.
Import SpecFloat PrimFloat FloatOps FloatAxioms.
Local Open Scope float_scope.

Lemma SFcompare_antisym (x y : spec_float) :
  SFcompare y x = option_map CompOpp (SFcompare x y).
Proof.
  destruct x as [sx | sx | | sx mx ex], y as [sy | sy | | sy my ey];
    try destruct sx; try destruct sy; try reflexivity; simpl;
    change (Pos.compare_cont Eq) with Pos.compare;
    rewrite (Z.compare_antisym ex ey), (Pos.compare_antisym mx my);
    destruct (ex ?= ey)%Z, (mx ?= my)%positive; reflexivity.
Qed.

Lemma SFleb_trans (x y z : spec_float) :
  SFleb x y = true -> SFleb y z = true -> SFleb x z = true.
Proof.
  unfold SFleb.
  destruct x as [sx | sx | | sx mx ex], y as [sy | sy | | sy my ey],
           z as [sz | sz | | sz mz ez];
    try destruct sx; try destruct sy; try destruct sz;
    simpl; try reflexivity; try discriminate;
    change (Pos.compare_cont Eq) with Pos.compare;
    repeat match goal with
    | |- context [(?a ?= ?b)%Z] => destruct (Z.compare_spec a b)
    | |- context [(?a ?= ?b)%positive] => destruct (Pos.compare_spec a b)
    end; simpl; try reflexivity; try discriminate; intros; exfalso; lia.
Qed.

Lemma SFcompare_None (x y : spec_float) :
  SFcompare x y = None -> x = S754_nan \/ y = S754_nan.
Proof.
  destruct x as [sx | sx | | sx mx ex], y as [sy | sy | | sy my ey];
    simpl; auto; discriminate.
Qed.

Lemma is_nan_spec (p : float) : is_nan p = true <-> Prim2SF p = S754_nan.
Proof.
  unfold is_nan. rewrite FloatAxioms.eqb_spec. unfold SFeqb.
  destruct (Prim2SF p) as [s | s | | s m e]; simpl.
  - split; discriminate.
  - destruct s; split; discriminate.
  - split; reflexivity.
  - destruct s; rewrite Z.compare_refl;
      change (Pos.compare_cont Eq m m) with (Pos.compare m m);
      rewrite Pos.compare_refl; split; discriminate.
Qed.

Lemma float_leb_trans (p q r : float) :
  (p <=? q) = true -> (q <=? r) = true -> (p <=? r) = true.
Proof. rewrite !leb_spec. apply SFleb_trans. Qed.

Lemma float_leb_false (p c : float) :
  (p <=? c) = false ->
  (c <? p) = true \/ is_nan p = true \/ is_nan c = true.
Proof.
  rewrite leb_spec, ltb_spec, !is_nan_spec. unfold SFleb, SFltb.
  rewrite (SFcompare_antisym (Prim2SF p) (Prim2SF c)).
  destruct (SFcompare (Prim2SF p) (Prim2SF c)) as [[] |] eqn:E; simpl;
    try discriminate; auto.
  intros _. right. apply SFcompare_None. exact E.
Qed.

Lemma float_ltb_leb (c p : float) : (c <? p) = true -> (c <=? p) = true.
Proof.
  rewrite leb_spec, ltb_spec. unfold SFleb, SFltb.
  destruct (SFcompare (Prim2SF c) (Prim2SF p)) as [[] |]; congruence.
Qed.

Lemma float_leb_refl (p : float) : is_nan p = false -> (p <=? p) = true.
Proof.
  intros H. destruct (p <=? p) eqn:E; [reflexivity |].
  apply float_leb_false in E as [E | [E | E]]; [| congruence | congruence].
  rewrite ltb_spec in E. unfold SFltb in E.
  pose proof (SFcompare_antisym (Prim2SF p) (Prim2SF p)) as A.
  destruct (SFcompare (Prim2SF p) (Prim2SF p)) as [[] |]; discriminate.
Qed.

Lemma float_nan_leb (p c : float) : is_nan p = true -> (p <=? c) = false.
Proof.
  rewrite is_nan_spec, leb_spec. intros ->. reflexivity.
Qed.

End Binary64Order.

Section Binary64Ladder.
Import PrimFloat.
Local Open Scope float_scope.

(** X17.  In binary64 the ladder is monotone: for any two floats with
    [p <= q] (infinities included) the category of [p] is not more
    severe than that of [q]. *)
Theorem binary64_category_monotone (p q : float) :
  (p <=? q) = true ->
  (rank (fst (Binary64.category p)) <= rank (fst (Binary64.category q)))%nat.
Proof.
  intros Hpq. unfold Binary64.category.
  assert (T : forall c, (q <=? c) = true -> (p <=? c) = true)
    by (intros c; apply float_leb_trans; exact Hpq).
  destruct (q <=? 50) eqn:Q1; [rewrite (T _ Q1); simpl; lia |].
  destruct (q <=? 100) eqn:Q2;
    [destruct (p <=? 50); [simpl; lia | rewrite (T _ Q2); simpl; lia] |].
  destruct (q <=? 200) eqn:Q3;
    [destruct (p <=? 50), (p <=? 100); simpl; try lia;
     rewrite (T _ Q3); simpl; lia |].
  destruct (q <=? 300) eqn:Q4;
    [destruct (p <=? 50), (p <=? 100), (p <=? 200); simpl; try lia;
     rewrite (T _ Q4); simpl; lia |].
  destruct (p <=? 50), (p <=? 100), (p <=? 200), (p <=? 300); simpl; lia.
Qed.

(** X17 between the scores of the default form and of the same form
    with CO at 6. *)
Lemma binary64_category_monotone_witness :
  (rank (snd (Binary64.score 50 80 30 20 1 40))
   <= rank (snd (Binary64.score 50 80 30 20 6 40)))%nat.
Proof.
  apply (binary64_category_monotone
           (fst (Binary64.score 50 80 30 20 1 40))
           (fst (Binary64.score 50 80 30 20 6 40))).
  vm_compute. reflexivity.
Defined.

(** X18.  In binary64 the ladder is the right-closed partition for
    every float: Good means [p <= 50]; Moderate, Poor and VeryPoor mean
    [p] above the previous threshold and at most the next; Severe means
    [p > 300] or [p] is NaN, and a NaN is always labelled Severe. *)
Theorem binary64_ladder_partition (p : float) :
  match fst (Binary64.category p) with
  | Good => (p <=? 50) = true
  | Moderate => (50 <? p) = true /\ (p <=? 100) = true
  | Poor => (100 <? p) = true /\ (p <=? 200) = true
  | VeryPoor => (200 <? p) = true /\ (p <=? 300) = true
  | Severe => (300 <? p) = true \/ is_nan p = true
  end
  /\ (is_nan p = true -> fst (Binary64.category p) = Severe).
Proof.
  split.
  - unfold Binary64.category.
    assert (F : forall c, is_nan c = false -> (p <=? c) = false ->
                          is_nan p = false -> (c <? p) = true).
    { intros c Hc H Hp. apply float_leb_false in H as [H | [H | H]];
        [exact H | congruence | congruence]. }
    destruct (is_nan p) eqn:Hn.
    + rewrite !(float_nan_leb p _ Hn). simpl. right. reflexivity.
    + destruct (p <=? 50) eqn:E1; [reflexivity |].
      destruct (p <=? 100) eqn:E2;
        [simpl; split; [apply F; auto | reflexivity] |].
      destruct (p <=? 200) eqn:E3;
        [simpl; split; [apply F; auto | reflexivity] |].
      destruct (p <=? 300) eqn:E4;
        [simpl; split; [apply F; auto | reflexivity] |].
      simpl. left. apply F; auto.
  - intros Hn. unfold Binary64.category.
    rewrite !(float_nan_leb p _ Hn). reflexivity.
Qed.

(** X18 at a NaN score (0 times infinity): it is labelled Severe. *)
Lemma binary64_ladder_partition_witness :
  fst (Binary64.category (0 * infinity)) = Severe.
Proof.
  apply (binary64_ladder_partition (0 * infinity)). reflexivity.
Defined.

(** X19.  In binary64 the reported prediction is never above 500,
    whatever the six inputs (infinities and NaN included); when the
    weighted sum is not NaN the prediction is at most 500 and at most
    the sum, and it is the sum itself unless the sum is above 500. *)
Theorem binary64_prediction_capped (a b c d e f : float) :
  (500 <? Binary64.prediction a b c d e f) = false
  /\ (is_nan (Binary64.weighted_sum a b c d e f) = false ->
      (Binary64.prediction a b c d e f <=? 500) = true
      /\ (Binary64.prediction a b c d e f
          <=? Binary64.weighted_sum a b c d e f) = true)
  /\ ((500 <? Binary64.weighted_sum a b c d e f) = false ->
      Binary64.prediction a b c d e f = Binary64.weighted_sum a b c d e f).
Proof.
  unfold Binary64.prediction, Binary64.py_min.
  set (w := Binary64.weighted_sum a b c d e f).
  destruct (500 <? w) eqn:E.
  - split; [reflexivity |]. split; [| discriminate].
    intros _. split; [reflexivity | apply float_ltb_leb; exact E].
  - split; [exact E |]. split; [| reflexivity].
    intros Hn. split; [| apply float_leb_refl; exact Hn].
    destruct (w <=? 500) eqn:L; [reflexivity |].
    apply float_leb_false in L as [L | [L | L]]; [congruence | congruence |].
    discriminate L.
Qed.

(** X19 at the largest values the widgets accept: the sum 865 is
    reported as 500. *)
Lemma binary64_prediction_capped_witness :
  Binary64.weighted_sum 500 500 200 200 50 300 = 865
  /\ (Binary64.prediction 500 500 200 200 50 300 <=? 500) = true.
Proof.
  split; [vm_compute; reflexivity |].
  apply (binary64_prediction_capped 500 500 200 200 50 300).
  vm_compute. reflexivity.
Defined.

End Binary64Ladder.

(** ** Which categories can occur *)

(** X20.  Every category of the ladder can be reached from values the
    widgets accept, Severe included; records within the declared
    domains of the data set reach every category but Severe. *)
Theorem categories_reachable (c : Category) :
  (exists s a, widget_bounds s /\ score s = inr (a, c))
  /\ (c <> Severe ->
      exists r, in_domain r /\ fst (category (clip1 0 500 (row_weighted r))) = c).
Proof.
  assert (W : forall v, 0 <= v <= 50 ->
                        widget_bounds (mkSidebar 0 0 0 0 v 0 25 60 2)).
  { intros v Hv. unfold widget_bounds, within. simpl. repeat split; lra. }
  assert (D : forall a b, (10 <= a < 300)%Z -> (20 <= b < 400)%Z ->
                in_domain (mkRow a b 5 2 0.1 10 10 20 0 0%Z 0)).
  { intros a b Ha Hb. unfold in_domain. simpl.
    repeat split; try lia; try lra. }
  split.
  - destruct c.
    + exists (mkSidebar 0 0 0 0 1 0 25 60 2). eexists.
      split; [apply W; lra | vm_compute; reflexivity].
    + exists (mkSidebar 0 0 0 0 8 0 25 60 2). eexists.
      split; [apply W; lra | vm_compute; reflexivity].
    + exists (mkSidebar 0 0 0 0 15 0 25 60 2). eexists.
      split; [apply W; lra | vm_compute; reflexivity].
    + exists (mkSidebar 0 0 0 0 25 0 25 60 2). eexists.
      split; [apply W; lra | vm_compute; reflexivity].
    + exists (mkSidebar 0 0 0 0 40 0 25 60 2). eexists.
      split; [apply W; lra | vm_compute; reflexivity].
  - intros Hc. destruct c; [| | | | congruence].
    + exists (mkRow 10 20 5 2 0.1 10 10 20 0 0%Z 0).
      split; [apply D; lia | vm_compute; reflexivity].
    + exists (mkRow 100 100 5 2 0.1 10 10 20 0 0%Z 0).
      split; [apply D; lia | vm_compute; reflexivity].
    + exists (mkRow 200 200 5 2 0.1 10 10 20 0 0%Z 0).
      split; [apply D; lia | vm_compute; reflexivity].
    + exists (mkRow 299 399 5 2 0.1 10 10 20 0 0%Z 0).
      split; [apply D; lia | vm_compute; reflexivity].
Qed.

(** X20 for VeryPoor, from the largest particulate values of the data
    set's domains. *)
Lemma categories_reachable_witness :
  exists r,
    in_domain r /\ fst (category (clip1 0 500 (row_weighted r))) = VeryPoor.
Proof.
  apply (categories_reachable VeryPoor). discriminate.
Defined.
